(** * The banner upload handler ([src/pages/api/banner/upload.ts])

    A shallow embedding of the Next.js API route that receives a banner
    image: the handler body is a computation in a small state-and-exception
    monad over a [World] (BannerImage table, files on disk, the response
    object, the request stream), and the ['data'] listener it registers is a
    second computation run once per chunk after the handler has returned. *)

From stdpp Require Import base strings list gmap.

Local Open Scope N_scope.

(** ** Data model *)

(** A value of Prisma's [Json] column type (the [value] of a
    [systemConfigSetting] row). *)
Inductive Json :=
  | JNull
  | JBool (b : bool)
  | JNumber (z : Z)
  | JString (s : string).

(** Row of the [user] table, as far as the handler follows it: the unique
    [email] and the relation to a project. *)
Record User := { u_email : string; u_projectId : option string }.

(** Row of the [bannerImage] table. *)
Record BannerImage := { id : string; url : string; projectId : string }.

(** [session.user] as the handler reads it. *)
Record Session := { s_email : string; s_projectId : string }.

(** The request: method, the [content-length] header (absent, or the number
    its digits denote) and the lengths of the body chunks in arrival order.
    The listener reads nothing of a chunk but [data.length]. *)
Record Request := {
  method : string;
  content_length : option N;
  body : list N
}.

(** The two shapes of response body: [{ e }] and [{ url }]. *)
Inductive Body :=
  | BodyE (e : string)
  | BodyUrl (u : string).

(** The response object: [statusCode] and the headers can be set until the
    response is sent; [sent] is what went to the client. *)
Record Response := {
  statusCode : N;
  headers : list (string * string);
  sent : option (N * Body)
}.

(** The variables the ['data'] listener closes over (lines 76-80), and
    whether the request is still piped into the file stream. *)
Record Upload := {
  filename : string;
  size : N;
  successful : bool;
  piped : bool
}.

(** Calls that leave the handler, in the order they happen. A mutation of
    the [bannerImage] table carries the table it leaves behind. *)
Inductive Event :=
  | EConfigFind (key : string)
  | EGetSession
  | EUserFind (email : string)
  | EBannerDelete (i : string) (after : list BannerImage)
  | EBannerCreate (b : BannerImage) (after : list BannerImage)
  | EUnlink (path : string)
  | EConsoleError (e : string)
  | ECreateId
  | EMkdir (path : string)
  | ECreateWriteStream (path : string)
  | EReqDestroy
  | EReqUnpipe.

Record World := {
  bannerImage : list BannerImage;
  disk : gmap string N;
  res : Response;
  destroyed : bool;
  upload : option Upload;
  trace : list Event;
  uncaught : list string
}.

(** External calls that can throw (or reject). *)
Inductive Op :=
  | OConfigFind
  | OGetSession
  | OUserFind
  | OBannerDelete
  | OUnlinkOld
  | OCreateId
  | OBannerCreate
  | OMkdir
  | OUnlinkPartial.

(** What the collaborators answer during one request: the settings table,
    the user table, the Session Resolver's answer, the identifier [createId]
    returns, whether the schema declares [bannerImage.projectId] unique, and
    which calls fail, with the message of the exception. *)
Record Env := {
  systemConfigSetting : gmap string Json;
  user : list User;
  getServerSession : option Session;
  createId : string;
  uniqueProject : bool;
  fault : Op → option string
}.

Definition maxSize : N := 5000000.

Definition image_url (i : string) : string := "/api/res/images/" +:+ i.
Definition upload_path (i : string) : string := "./data/uploads/" +:+ i +:+ ".jpg".

Definition fresh_response : Response :=
  {| statusCode := 200; headers := []; sent := None |}.

(** The world a request arrives in: a table, a disk, nothing sent yet. *)
Definition arrive (t : list BannerImage) (d : gmap string N) : World :=
  {| bannerImage := t; disk := d; res := fresh_response; destroyed := false;
     upload := None; trace := []; uncaught := [] |}.

(** ** State and exceptions *)

Inductive Outcome (A : Type) :=
  | Ret (a : A) (w : World)
  | Throw (e : string) (w : World).
Arguments Ret {A} a w.
Arguments Throw {A} e w.

Definition M (A : Type) : Type := World → Outcome A.

Definition ret {A} (a : A) : M A := λ w, Ret a w.
Definition throw {A} (e : string) : M A := λ w, Throw e w.
Definition bind {A B} (m : M A) (k : A → M B) : M B :=
  λ w, match m w with
       | Ret a w' => k a w'
       | Throw e w' => Throw e w'
       end.
Definition try_catch {A} (m : M A) (h : string → M A) : M A :=
  λ w, match m w with
       | Ret a w' => Ret a w'
       | Throw e w' => h e w'
       end.

Notation "'do' x <- m ; k" := (bind m (λ x, k))
  (at level 10, x name, m at level 100, k at level 200).
Notation "m ;; k" := (bind m (λ _, k))
  (at level 100, k at level 200, right associativity).

(** The world a computation leaves; an exception nobody caught is recorded. *)
Definition set_uncaught (e : string) (w : World) : World :=
  {| bannerImage := bannerImage w; disk := disk w; res := res w;
     destroyed := destroyed w; upload := upload w; trace := trace w;
     uncaught := uncaught w ++ [e] |}.

Definition exec (m : M unit) (w : World) : World :=
  match m w with
  | Ret _ w' => w'
  | Throw e w' => set_uncaught e w'
  end.

Definition set_bannerImage (t : list BannerImage) (w : World) : World :=
  {| bannerImage := t; disk := disk w; res := res w;
     destroyed := destroyed w; upload := upload w; trace := trace w;
     uncaught := uncaught w |}.
Definition set_disk (d : gmap string N) (w : World) : World :=
  {| bannerImage := bannerImage w; disk := d; res := res w;
     destroyed := destroyed w; upload := upload w; trace := trace w;
     uncaught := uncaught w |}.
Definition set_res (r : Response) (w : World) : World :=
  {| bannerImage := bannerImage w; disk := disk w; res := r;
     destroyed := destroyed w; upload := upload w; trace := trace w;
     uncaught := uncaught w |}.
Definition set_destroyed (b : bool) (w : World) : World :=
  {| bannerImage := bannerImage w; disk := disk w; res := res w;
     destroyed := b; upload := upload w; trace := trace w;
     uncaught := uncaught w |}.
Definition set_upload (u : option Upload) (w : World) : World :=
  {| bannerImage := bannerImage w; disk := disk w; res := res w;
     destroyed := destroyed w; upload := u; trace := trace w;
     uncaught := uncaught w |}.
Definition set_trace (t : list Event) (w : World) : World :=
  {| bannerImage := bannerImage w; disk := disk w; res := res w;
     destroyed := destroyed w; upload := upload w; trace := t;
     uncaught := uncaught w |}.

Definition modify (f : World → World) : M unit := λ w, Ret tt (f w).
Definition log (e : Event) : M unit := modify (λ w, set_trace (trace w ++ [e]) w).

(** ** The collaborators *)

Section Handler.

Variable env : Env.

(** An external call fails when the environment says so. *)
Definition attempt (op : Op) : M unit :=
  λ w, match fault env op with
       | Some e => Throw e w
       | None => Ret tt w
       end.

(** [prisma.systemConfigSetting.findUnique({ where: { key } })] *)
Definition systemConfigSetting_findUnique (key : string) : M (option Json) :=
  log (EConfigFind key) ;;
  attempt OConfigFind ;;
  ret (systemConfigSetting env !! key).

(** [getServerSession(req, res, authOptions)] *)
Definition get_server_session : M (option Session) :=
  log EGetSession ;;
  attempt OGetSession ;;
  ret (getServerSession env).

(** The banner of a project: the row whose [projectId] is the project's. *)
Definition banner_of (p : string) (t : list BannerImage) : option BannerImage :=
  List.find (λ b, bool_decide (projectId b = p)) t.

(** The project a user row points to, by email. *)
Definition project_of (email : string) : option string :=
  match List.find (λ u, bool_decide (u_email u = email)) (user env) with
  | Some u => u_projectId u
  | None => None
  end.

(** What [prisma.user.findUnique({ where: { email } }).project().banner()]
    resolves to: [null] when the user, the project or the banner is
    missing. *)
Definition current_banner (email : string) (t : list BannerImage) : option BannerImage :=
  match project_of email with
  | Some p => banner_of p t
  | None => None
  end.

(** The lookup of lines 45-50. *)
Definition user_project_banner (email : string) : M (option BannerImage) :=
  log (EUserFind email) ;;
  attempt OUserFind ;;
  λ w, Ret (current_banner email (bannerImage w)) w.

(** Some row has this primary key; some row belongs to this project. *)
Definition has_id (i : string) (t : list BannerImage) : bool :=
  bool_decide (i ∈ id <$> t).
Definition has_project (p : string) (t : list BannerImage) : bool :=
  bool_decide (p ∈ projectId <$> t).

(** [prisma.bannerImage.delete({ where: { id } })]: removes the row with
    this primary key, and throws when there is none. *)
Definition bannerImage_delete (i : string) : M unit :=
  attempt OBannerDelete ;;
  λ w, if has_id i (bannerImage w) then
         let t := filter (λ b, id b ≠ i) (bannerImage w) in
         Ret tt (set_trace (trace w ++ [EBannerDelete i t]) (set_bannerImage t w))
       else Throw "P2025: record to delete does not exist" w.

(** [prisma.bannerImage.create({ data })]: throws on a primary key that is
    taken and, when the schema declares it, on a project that has a row. *)
Definition bannerImage_create (b : BannerImage) : M unit :=
  attempt OBannerCreate ;;
  λ w, if has_id (id b) (bannerImage w) then
         Throw "P2002: unique constraint failed on id" w
       else if uniqueProject env && has_project (projectId b) (bannerImage w) then
         Throw "P2002: unique constraint failed on projectId" w
       else
         let t := bannerImage w ++ [b] in
         Ret tt (set_trace (trace w ++ [EBannerCreate b t]) (set_bannerImage t w)).

(** [fs.promises.unlink(path).catch(e => console.error(...))] (lines
    59-63): the file goes if the call succeeds, a failure is only logged.
    The call is not awaited; its outcome is recorded with the call. *)
Definition unlink_logged (path : string) : M unit :=
  log (EUnlink path) ;;
  λ w, match fault env OUnlinkOld with
       | Some e => log (EConsoleError e) w
       | None =>
           match disk w !! path with
           | Some _ => Ret tt (set_disk (delete path (disk w)) w)
           | None => log (EConsoleError "ENOENT") w
           end
       end.

(** [fs.promises.unlink(filename)] (line 88): nobody handles a rejection. *)
Definition unlink_unhandled (path : string) : M unit :=
  log (EUnlink path) ;;
  λ w, match fault env OUnlinkPartial with
       | Some e => Ret tt (set_uncaught e w)
       | None =>
           match disk w !! path with
           | Some _ => Ret tt (set_disk (delete path (disk w)) w)
           | None => Ret tt (set_uncaught "ENOENT" w)
           end
       end.

(** [createId()] *)
Definition create_id : M string :=
  log ECreateId ;;
  attempt OCreateId ;;
  ret (createId env).

(** [fs.promises.mkdir('./data/uploads', { recursive: true })] *)
Definition mkdir (path : string) : M unit :=
  attempt OMkdir ;;
  log (EMkdir path).

(** [fs.createWriteStream(filename)]: the file is created, or truncated;
    the open is taken to succeed. *)
Definition createWriteStream (path : string) : M unit :=
  log (ECreateWriteStream path) ;;
  modify (λ w, set_disk (<[path := 0]> (disk w)) w).

(** ** The response object *)

(** [res.setHeader]: throws once the response has been sent. *)
Definition setHeader (k v : string) : M unit :=
  λ w, match sent (res w) with
       | Some _ => Throw "ERR_HTTP_HEADERS_SENT" w
       | None =>
           Ret tt (set_res {| statusCode := statusCode (res w);
                              headers := headers (res w) ++ [(k, v)];
                              sent := None |} w)
       end.

(** [res.status(n)] only assigns [statusCode]. *)
Definition status (n : N) : M unit :=
  modify (λ w, set_res {| statusCode := n; headers := headers (res w);
                          sent := sent (res w) |} w).

(** [res.json(body)] sets the content type and sends: it throws when a
    response has been sent already, and what was sent stays as it was. *)
Definition json (b : Body) : M unit :=
  λ w, match sent (res w) with
       | Some _ => Throw "ERR_HTTP_HEADERS_SENT" w
       | None =>
           Ret tt (set_res {| statusCode := statusCode (res w);
                              headers := headers (res w);
                              sent := Some (statusCode (res w), b) |} w)
       end.

(** ** The request stream *)

(** [req.on('data', listener).pipe(fileStream)] (lines 82-94): the listener
    and the pipe are registered; no chunk is delivered before the handler
    gives up control. *)
Definition on_data_pipe (path : string) : M unit :=
  modify (set_upload (Some {| filename := path; size := 0;
                              successful := true; piped := true |})).

(** The read of [successful] at line 95. *)
Definition get_successful : M bool :=
  λ w, Ret (match upload w with Some u => successful u | None => true end) w.

(** [req.destroy()] and [req.unpipe(fileStream)], lines 86-87. *)
Definition req_destroy : M unit :=
  log EReqDestroy ;; modify (set_destroyed true).

Definition with_upload (f : Upload → Upload) : M unit :=
  modify (λ w, set_upload (f <$> upload w) w).

Definition req_unpipe : M unit :=
  log EReqUnpipe ;;
  with_upload (λ u, {| filename := filename u; size := size u;
                       successful := successful u; piped := false |}).

(** ** [handler], lines 10-105 *)

(** [forbidEditing?.value === true]: a row was found and its value is the
    JSON boolean [true]. *)
Definition strictly_true (row : option Json) : bool :=
  match row with
  | Some (JBool true) => true
  | _ => false
  end.

(** The body of the [try] block, lines 21-100. *)
Definition handler_try (req : Request) : M unit :=
  do forbidEditing <- systemConfigSetting_findUnique "forbidEditing";
  if strictly_true forbidEditing then
    status 400 ;;
    json (BodyE "Bad Request: Project editing is not currently allowed")
  else
    let reportedSize := default 0 (content_length req) in
    if maxSize <? reportedSize then
      status 413 ;; json (BodyE "Resource size exceeds limit (5MB)")
    else
      do session <- get_server_session;
      match session with
      | None => status 401 ;; json (BodyE "Unauthorized")
      | Some session =>
          do currentBanner <- user_project_banner (s_email session);
          match currentBanner with
          | Some b =>
              bannerImage_delete (id b) ;;
              unlink_logged (upload_path (id b))
          | None => ret tt
          end ;;
          do i <- create_id;
          bannerImage_create {| id := i; url := image_url i;
                                projectId := s_projectId session |} ;;
          let filename := upload_path i in
          mkdir "./data/uploads" ;;
          createWriteStream filename ;;
          on_data_pipe filename ;;
          do successful <- get_successful;
          if successful then status 200 ;; json (BodyUrl (image_url i))
          else ret tt
      end.

(** Lines 14-18, then the [try] block and its [catch], lines 101-104. *)
Definition handler (req : Request) : M unit :=
  if bool_decide (method req = "POST") then
    try_catch (handler_try req)
      (λ e, log (EConsoleError e) ;;
            status 500 ;; json (BodyE "Internal Server Error"))
  else
    setHeader "Allow" "POST" ;;
    status 405 ;; json (BodyE "Method Not Allowed").

(** ** The ['data'] listener, lines 82-93 *)

Definition on_data (len : N) : M unit :=
  λ w, match upload w with
       | None => Ret tt w
       | Some u =>
           let size' := size u + len in
           (with_upload (λ u, {| filename := filename u; size := size';
                                 successful := successful u;
                                 piped := piped u |}) ;;
            if maxSize <? size' then
              req_destroy ;;
              req_unpipe ;;
              unlink_unhandled (filename u) ;;
              status 413 ;;
              json (BodyE "Resource size exceeds limit (5MB)") ;;
              with_upload (λ u, {| filename := filename u; size := size u;
                                   successful := false; piped := piped u |})
            else ret tt) w
       end.

(** The listener [pipe] added: the chunk is appended to the file the stream
    has open; a file that was unlinked does not come back. *)
Definition pipe_write (len : N) (w : World) : World :=
  match upload w with
  | None => w
  | Some u =>
      match disk w !! filename u with
      | Some n => set_disk (<[filename u := n + len]> (disk w)) w
      | None => w
      end
  end.

(** One ['data'] event: the listeners registered when the event fires run in
    the order they were added, an exception in one ends the emit; a
    destroyed request emits no more. *)
Definition emit_data (w : World) (len : N) : World :=
  if destroyed w then w
  else
    let was_piped := match upload w with Some u => piped u | None => false end in
    match on_data len w with
    | Throw e w' => set_uncaught e w'
    | Ret _ w' => if was_piped then pipe_write len w' else w'
    end.

(** The chunks of a body, one ['data'] event each. *)
Definition stream (chunks : list N) (w : World) : World :=
  foldl emit_data w chunks.

(** A whole request: the handler runs to its end, then the body arrives,
    every chunk of it, as on a connection that stays open. *)
Definition serve (req : Request) (w : World) : World :=
  stream (body req) (exec (handler req) w).

End Handler.

(** ** What the claims speak of *)

(** Bytes of a body: the sum the listener accumulates in [size]. *)
Definition received (chunks : list N) : N := foldr N.add 0 chunks.

(** At most one banner row per project. *)
Definition at_most_one_per_project (t : list BannerImage) : Prop :=
  NoDup (projectId <$> t).

(** The event changes the table or the disk. *)
Definition is_mutation (e : Event) : bool :=
  match e with
  | EBannerDelete _ _ | EBannerCreate _ _ | EUnlink _
  | EMkdir _ | ECreateWriteStream _ => true
  | _ => false
  end.

(** The Config Store answers, and the answer is that editing is locked. *)
Definition editing_forbidden (env : Env) : Prop :=
  fault env OConfigFind = None ∧
  systemConfigSetting env !! "forbidEditing" = Some (JBool true).

(** The Config Store answers, and editing is not locked. *)
Definition editing_allowed (env : Env) : Prop :=
  fault env OConfigFind = None ∧
  systemConfigSetting env !! "forbidEditing" ≠ Some (JBool true).

(** The declared length passes the check of line 35. *)
Definition declared_within_limit (req : Request) : Prop :=
  default 0 (content_length req) ≤ maxSize.

(** The Session Resolver answers that there is no session. *)
Definition no_session (env : Env) : Prop :=
  fault env OGetSession = None ∧ getServerSession env = None.

(** The session names the project of the user row with its email. *)
Definition session_consistent (env : Env) : Prop :=
  ∀ s, getServerSession env = Some s →
       project_of env (s_email s) = Some (s_projectId s).

(** The tables the trace went through, oldest first. *)
Definition tables (tr : list Event) : list (list BannerImage) :=
  omap (λ e, match e with
             | EBannerDelete _ t | EBannerCreate _ t => Some t
             | _ => None
             end) tr.

(** No row is deleted once a row has been created. *)
Fixpoint delete_before_create (tr : list Event) : bool :=
  match tr with
  | [] => true
  | EBannerCreate _ _ :: tr' =>
      forallb (λ e, match e with EBannerDelete _ _ => false | _ => true end) tr'
  | _ :: tr' => delete_before_create tr'
  end.

(** The row line 68 creates for a session. *)
Definition new_row (env : Env) (s : Session) : BannerImage :=
  {| id := createId env; url := image_url (createId env);
     projectId := s_projectId s |}.

(** The table once lines 52-57 have run: without the caller's current
    banner, if there was one. *)
Definition without_current (env : Env) (s : Session) (t : list BannerImage)
    : list BannerImage :=
  match current_banner env (s_email s) t with
  | Some b => filter (λ x, id x ≠ id b) t
  | None => t
  end.

(** What [bannerImage.create] checks before it inserts. *)
Definition insertable (env : Env) (b : BannerImage) (t : list BannerImage) : Prop :=
  (id b ∉ id <$> t) ∧
  (uniqueProject env = true → projectId b ∉ projectId <$> t).

(** The listener state line 94 leaves. *)
Definition listening (i : string) : Upload :=
  {| filename := upload_path i; size := 0; successful := true; piped := true |}.

(** The computation ends in the exception [e]. *)
Definition throws {A} (m : M A) (w : World) (e : string) : Prop :=
  ∃ w', m w = Throw e w'.

(** *** Where the handler can leave the world [w1], seen from the table [t]
    and the disk [d] the request arrived in *)

(** The request was turned away before lines 52-74: nothing changed. *)
Definition turned_away (t : list BannerImage) (d : gmap string N) (w1 : World) : Prop :=
  bannerImage w1 = t ∧ disk w1 = d ∧ upload w1 = None ∧
  destroyed w1 = false ∧ uncaught w1 = [] ∧
  Forall (λ e, is_mutation e = false) (trace w1) ∧
  ∃ n e, sent (res w1) = Some (n, BodyE e) ∧ n ≠ 200.

(** How far lines 52-74 got: nothing yet, the old row deleted, the new row
    created. *)
Definition progress (env : Env) (s : Session) (t : list BannerImage) (w1 : World) : Prop :=
  let t' := without_current env s t in
  let b := new_row env s in
  (bannerImage w1 = t ∧ tables (trace w1) = []) ∨
  (bannerImage w1 = t' ∧ tables (trace w1) = [t']) ∨
  (insertable env b t' ∧ bannerImage w1 = t' ++ [b] ∧
   Forall (λ x, x = t' ∨ x = t' ++ [b]) (tables (trace w1))).

(** A collaborator threw between line 45 and line 77. *)
Definition failed_midway (env : Env) (s : Session) (t : list BannerImage) (w1 : World) : Prop :=
  sent (res w1) = Some (500, BodyE "Internal Server Error") ∧
  upload w1 = None ∧ destroyed w1 = false ∧ uncaught w1 = [] ∧
  delete_before_create (trace w1) = true ∧
  progress env s t w1.

(** The handler reached line 96. *)
Definition accepted (env : Env) (s : Session) (t : list BannerImage) (w1 : World) : Prop :=
  let t' := without_current env s t in
  let b := new_row env s in
  sent (res w1) = Some (200, BodyUrl (image_url (createId env))) ∧
  insertable env b t' ∧
  bannerImage w1 = t' ++ [b] ∧
  Forall (λ x, x = t' ∨ x = t' ++ [b]) (tables (trace w1)) ∧
  EBannerCreate b (t' ++ [b]) ∈ trace w1 ∧
  ECreateId ∈ trace w1 ∧
  (∀ old, current_banner env (s_email s) t = Some old →
          EBannerDelete (id old) t' ∈ trace w1 ∧
          EUnlink (upload_path (id old)) ∈ trace w1) ∧
  upload w1 = Some (listening (createId env)) ∧
  disk w1 !! upload_path (createId env) = Some 0 ∧
  destroyed w1 = false ∧ uncaught w1 = [] ∧
  delete_before_create (trace w1) = true.

(** ** Concrete requests

    A small store and a few requests, used to run the handler. *)

#[global] Instance Op_eq_dec : EqDecision Op.
Proof. solve_decision. Defined.

Definition no_fault : Op → option string := λ _, None.

(** Only [op] fails, with message [e]. *)
Definition fault_at (op : Op) (e : string) : Op → option string :=
  λ o, if decide (o = op) then Some e else None.

Definition alice : User := {| u_email := "alice@example.org"; u_projectId := Some "p1" |}.
Definition alice_session : Session :=
  {| s_email := "alice@example.org"; s_projectId := "p1" |}.

Definition old_banner : BannerImage :=
  {| id := "old"; url := image_url "old"; projectId := "p1" |}.
Definition new_banner : BannerImage :=
  {| id := "new"; url := image_url "new"; projectId := "p1" |}.

Definition table0 : list BannerImage := [old_banner].
Definition disk0 : gmap string N := {[ upload_path "old" := 1024 ]}.

(** Alice is signed in, editing is open, nothing fails. *)
Definition env_open : Env :=
  {| systemConfigSetting := {[ "forbidEditing" := JBool false ]};
     user := [alice];
     getServerSession := Some alice_session;
     createId := "new";
     uniqueProject := true;
     fault := no_fault |}.

(** The same, with editing locked. *)
Definition env_locked : Env :=
  {| systemConfigSetting := {[ "forbidEditing" := JBool true ]};
     user := [alice];
     getServerSession := Some alice_session;
     createId := "new";
     uniqueProject := true;
     fault := no_fault |}.

(** Editing is open, nobody is signed in. *)
Definition env_anonymous : Env :=
  {| systemConfigSetting := {[ "forbidEditing" := JBool false ]};
     user := [alice];
     getServerSession := None;
     createId := "new";
     uniqueProject := true;
     fault := no_fault |}.

(** Editing is locked, nobody is signed in. *)
Definition env_locked_anonymous : Env :=
  {| systemConfigSetting := {[ "forbidEditing" := JBool true ]};
     user := [alice];
     getServerSession := None;
     createId := "new";
     uniqueProject := true;
     fault := no_fault |}.

(** Alice is signed in and [op] throws [e]. *)
Definition env_failing (op : Op) (e : string) : Env :=
  {| systemConfigSetting := {[ "forbidEditing" := JBool false ]};
     user := [alice];
     getServerSession := Some alice_session;
     createId := "new";
     uniqueProject := true;
     fault := fault_at op e |}.

Definition post_small : Request :=
  {| method := "POST"; content_length := Some 10; body := [3; 7] |}.
Definition post_declared_large : Request :=
  {| method := "POST"; content_length := Some 6000000; body := [] |}.
Definition get_declared_large : Request :=
  {| method := "GET"; content_length := Some 6000000; body := [] |}.
(** No [content-length] (chunked), 5,000,001 bytes in two chunks. *)
Definition post_overflow : Request :=
  {| method := "POST"; content_length := None; body := [4000000; 1000001] |}.

(** ** Further notions about the handler *)

(** The calls in [ops] do not fail. *)
Definition succeed (ops : list Op) (env : Env) : Prop :=
  ∀ op, op ∈ ops → fault env op = None.

(** The calls the handler awaits, in program order. *)
Definition awaited : list Op :=
  [OConfigFind; OGetSession; OUserFind; OBannerDelete; OCreateId;
   OBannerCreate; OMkdir].

(** The request with another body. *)
Definition with_body (req : Request) (chunks : list N) : Request :=
  {| method := method req; content_length := content_length req;
     body := chunks |}.

(** A request of which the listener receives the chunks [chunks] only: the
    whole body on a connection that stays open, a prefix of it when the
    connection ends once the response has gone out. *)
Definition serve_delivered (env : Env) (req : Request) (chunks : list N)
    (w : World) : World :=
  stream env chunks (exec (handler env req) w).

(** The six responses the handler has in its text. *)
Definition responses (env : Env) : list (N * Body) :=
  [(405, BodyE "Method Not Allowed");
   (400, BodyE "Bad Request: Project editing is not currently allowed");
   (413, BodyE "Resource size exceeds limit (5MB)");
   (401, BodyE "Unauthorized");
   (500, BodyE "Internal Server Error");
   (200, BodyUrl (image_url (createId env)))].

(** The disk once lines 52-64 have run: without the old file, if there was
    a current banner and its unlink did not fail. *)
Definition disk_without_current (env : Env) (s : Session)
    (t : list BannerImage) (d : gmap string N) : gmap string N :=
  match current_banner env (s_email s) t, fault env OUnlinkOld with
  | Some old, None => delete (upload_path (id old)) d
  | _, _ => d
  end.

(** While the listener runs, the file of the upload holds no more than the
    running count, which is within the limit; afterwards it still holds no
    more than the limit. *)
Definition bounded (w : World) : Prop :=
  is_Some (sent (res w)) ∧
  ∀ u, upload w = Some u →
       if destroyed w
       then ∀ n, disk w !! filename u = Some n → n ≤ maxSize
       else size u ≤ maxSize ∧
            ∀ n, disk w !! filename u = Some n → n ≤ size u.

(** The same bytes as [post_small], undeclared. *)
Definition post_undeclared : Request :=
  {| method := "POST"; content_length := None; body := [3; 7] |}.

(** Exactly 5,000,000 bytes, declared as such. *)
Definition post_exact : Request :=
  {| method := "POST"; content_length := Some 5000000; body := [5000000] |}.

(** ** The project directory page ([src/unnamed/part_000])

    [getServerSideProps] is a function of what its reads return (it has no
    error handling of its own: a read that throws ends the request), and
    the component is a function of its props and of the [selectedTag]
    state. A tag is the string it is at run time. *)

(** A JSON value a settings row can hold: a scalar, or an array or object,
    of which the page only tests the truth value. *)
Inductive JsonValue :=
  | Scalar (j : Json)
  | Compound.

(** JavaScript's truth value of a JSON value. *)
Definition truthy (v : JsonValue) : bool :=
  match v with
  | Scalar JNull => false
  | Scalar (JBool b) => b
  | Scalar (JNumber z) => negb (z =? 0)%Z
  | Scalar (JString s) => negb (bool_decide (s = ""))
  | Compound => true
  end.

(** [row?.value ?? false] *)
Definition value_or_false (row : option JsonValue) : JsonValue :=
  match row with
  | None | Some (Scalar JNull) => Scalar (JBool false)
  | Some v => v
  end.

(** The [logo] relation of a project, as far as the page reads it. *)
Record Logo := { logo_id : string; logo_url : string }.

(** A row of [prisma.project.findMany({ include: { logo: true } })], as far
    as the page reads it. *)
Record Project := {
  p_id : string;
  p_title : string;
  p_tagline : option string;
  p_description : option string;
  p_tags : list string;
  p_githubLink : option string;
  p_websiteLink : option string;
  p_videoLink : option string;
  p_logo : option Logo
}.

(** [LightProjectData], the object lines 50-65 build. *)
Record LightProjectData := {
  lp_id : string;
  lp_title : string;
  lp_tagline : option string;
  lp_description : option string;
  lp_tags : list string;
  lp_githubLink : option string;
  lp_websiteLink : option string;
  lp_videoLink : option string;
  lp_logo : option Logo
}.

(** A row of the [user] table as the page reads it. *)
Record Account := { acc_email : string; acc_isAdmin : bool }.

(** What the reads of [getServerSideProps] return: the session (absent, or
    with [user.email] absent or present), the [user] table, the projects and
    the settings table. *)
Record DirectoryStore := {
  ds_session : option (option string);
  ds_accounts : list Account;
  ds_projects : list Project;
  ds_settings : gmap string JsonValue
}.

Record Props := {
  directoryDisabled : JsonValue;
  projects : list LightProjectData;
  userIsAdmin : bool
}.

(** [session?.user?.email] when it is truthy: present and not empty. *)
Definition session_email (s : option (option string)) : option string :=
  match s with
  | Some (Some e) => if bool_decide (e = "") then None else Some e
  | _ => None
  end.

(** [prisma.user.findUnique({ where: { email } })] *)
Definition account_of (accounts : list Account) (e : string) : option Account :=
  List.find (λ a, bool_decide (acc_email a = e)) accounts.

(** The object of lines 50-65. *)
Definition light (p : Project) : LightProjectData :=
  {| lp_id := p_id p; lp_title := p_title p; lp_tagline := p_tagline p;
     lp_description := p_description p; lp_tags := p_tags p;
     lp_githubLink := p_githubLink p; lp_websiteLink := p_websiteLink p;
     lp_videoLink := p_videoLink p;
     lp_logo := match p_logo p with
                | Some l => Some {| logo_id := logo_id l; logo_url := logo_url l |}
                | None => None
                end |}.

(** [getServerSideProps], lines 15-70. *)
Definition getServerSideProps (st : DirectoryStore) : Props :=
  let user :=
    match session_email (ds_session st) with
    | Some e => account_of (ds_accounts st) e
    | None => None
    end in
  let directoryDisabledValue :=
    value_or_false (ds_settings st !! "directoryDisabled") in
  let userIsAdminValue :=
    match user with Some a => acc_isAdmin a | None => false end in
  {| directoryDisabled := directoryDisabledValue;
     projects :=
       if negb (truthy directoryDisabledValue) || userIsAdminValue
       then light <$> ds_projects st
       else [];
     userIsAdmin := userIsAdminValue |}.

(** [filteredProjects], lines 84-89. *)
Definition filteredProjects (ps : list LightProjectData)
    (selectedTag : option string) : list LightProjectData :=
  match selectedTag with
  | None => ps
  | Some tag => filter (λ p, tag ∈ lp_tags p) ps
  end.

(** [showDirectory], line 91. *)
Definition showDirectory (props : Props) : bool :=
  negb (truthy (directoryDisabled props)) || userIsAdmin props.

(** The [onChange] of a tag's checkbox, lines 131-137: the new
    [selectedTag]. *)
Definition onChange (tag : string) (checked : bool) : option string :=
  if checked then Some tag else None.

(** The tags whose label is rendered, lines 111-147: all of them, or the
    selected one alone. [tagKeys] are the keys of [TagStrings]. *)
Definition visible_tags (tagKeys : list string) (selectedTag : option string)
    : list string :=
  filter (λ tag, ¬ (selectedTag ≠ None ∧ selectedTag ≠ Some tag)) tagKeys.

(** What lines 152-267 render below the filter. *)
Inductive Listing :=
  | Cards (ps : list LightProjectData)
  | NoProjectsYet
  | DirectoryDisabledNotice.

(** The parts of the page that depend on props and state. *)
Record View := {
  adminNotice : bool;
  filterBar : option (list string);
  listing : Listing
}.

(** The component, lines 72-270. *)
Definition Projects (tagKeys : list string) (props : Props)
    (selectedTag : option string) : View :=
  let filtered := filteredProjects (projects props) selectedTag in
  let show := showDirectory props in
  {| adminNotice := truthy (directoryDisabled props) && userIsAdmin props;
     filterBar := if show then Some (visible_tags tagKeys selectedTag) else None;
     listing :=
       if show then
         if bool_decide (0 < length filtered)%nat then Cards filtered
         else NoProjectsYet
       else DirectoryDisabledNotice |}.

(** A store for running the page: one admin, one participant, two
    projects, the directory hidden. *)
Definition project_a : Project :=
  {| p_id := "a"; p_title := "Alpha"; p_tagline := Some "first";
     p_description := None; p_tags := ["WEB"; "AI"];
     p_githubLink := None; p_websiteLink := None; p_videoLink := None;
     p_logo := Some {| logo_id := "l1"; logo_url := "/api/res/images/l1" |} |}.
Definition project_b : Project :=
  {| p_id := "b"; p_title := "Beta"; p_tagline := None;
     p_description := None; p_tags := ["GAME"];
     p_githubLink := None; p_websiteLink := None; p_videoLink := None;
     p_logo := None |}.
Definition store_hidden (session : option (option string)) : DirectoryStore :=
  {| ds_session := session;
     ds_accounts := [ {| acc_email := "root@example.org"; acc_isAdmin := true |};
                      {| acc_email := "alice@example.org"; acc_isAdmin := false |} ];
     ds_projects := [project_a; project_b];
     ds_settings := {[ "directoryDisabled" := Scalar (JBool true) ]} |}.

(** ** Tactics for running the handler *)

Ltac unfold_prims :=
  unfold systemConfigSetting_findUnique, get_server_session,
    user_project_banner, bannerImage_delete, bannerImage_create,
    unlink_logged, unlink_unhandled, create_id, mkdir, createWriteStream,
    setHeader, status, json, on_data_pipe, get_successful, req_destroy,
    req_unpipe, with_upload, attempt, log, modify, try_catch, bind, ret,
    throw in *.

(** Reduce projections of worlds, and nothing else. *)
Ltac wsimpl :=
  cbn [arrive fresh_response set_uncaught set_bannerImage set_disk set_res
       set_destroyed set_upload set_trace bannerImage disk res destroyed
       upload trace uncaught statusCode headers sent filename size successful
       piped fmap option_fmap option_map] in *.

(** Run the handler on a POST request, one goal per path. *)
Ltac run_post Hm :=
  unfold exec, handler; rewrite (bool_decide_eq_true_2 _ Hm);
  unfold handler_try; unfold_prims; wsimpl;
  repeat (case_match; simplify_eq; wsimpl).

(** Run the handler on a POST request up to the first collaborator. *)
Ltac enter_post Hm :=
  unfold serve, exec, handler, handler_try;
  rewrite (bool_decide_eq_true_2 _ Hm);
  unfold_prims; simpl.

Ltac not_in_trace :=
  repeat match goal with
         | |- ∀ _, _ => intros ?
         | |- _ ∉ _ => intros ?
         | H : _ ∈ _ :: _ |- _ => apply elem_of_cons in H; destruct H as [?|H]
         | H : _ ∈ [] |- _ => by apply elem_of_nil in H
         | H : _ ∈ _ ++ _ |- _ => apply elem_of_app in H; destruct H as [H|H]
         end; try done.

(** ** The request stream after the handler *)

Lemma tables_app tr1 tr2 : tables (tr1 ++ tr2) = tables tr1 ++ tables tr2.
Proof. apply omap_app. Qed.

Section Stream.

Variable env : Env.

Lemma stream_nil w : stream env [] w = w.
Proof. reflexivity. Qed.

Lemma stream_cons len chunks w :
  stream env (len :: chunks) w = stream env chunks (emit_data env w len).
Proof. reflexivity. Qed.

Lemma emit_data_no_listener w len : upload w = None → emit_data env w len = w.
Proof.
  intros Hu. unfold emit_data, on_data. rewrite Hu.
  by destruct (destroyed w).
Qed.

Lemma emit_data_destroyed w len : destroyed w = true → emit_data env w len = w.
Proof. intros Hd. unfold emit_data. by rewrite Hd. Qed.

(** Without a listener the body is not read. *)
Lemma stream_no_listener chunks w : upload w = None → stream env chunks w = w.
Proof.
  revert w. induction chunks as [|len chunks IH]; intros w Hu; [done|].
  rewrite stream_cons, emit_data_no_listener by done. by apply IH.
Qed.

Lemma stream_destroyed chunks w : destroyed w = true → stream env chunks w = w.
Proof.
  revert w. induction chunks as [|len chunks IH]; intros w Hd; [done|].
  rewrite stream_cons, emit_data_destroyed by done. by apply IH.
Qed.

(** A ['data'] event touches neither the table nor a response that has been
    sent; what it adds to the trace is no mutation of the table. *)
Lemma emit_data_frame w len :
  bannerImage (emit_data env w len) = bannerImage w ∧
  (is_Some (sent (res w)) → sent (res (emit_data env w len)) = sent (res w)) ∧
  ∃ tr, trace (emit_data env w len) = trace w ++ tr ∧ tables tr = [].
Proof.
  unfold emit_data, on_data, pipe_write. unfold_prims.
  repeat (case_match; simplify_eq/=);
    (split_and!; [done|by intros [??]; congruence|]);
    first [ by exists []; rewrite app_nil_r
          | eexists; split; [by rewrite <- !app_assoc | done] ].
Qed.

Lemma stream_frame chunks w :
  bannerImage (stream env chunks w) = bannerImage w ∧
  (is_Some (sent (res w)) → sent (res (stream env chunks w)) = sent (res w)) ∧
  ∃ tr, trace (stream env chunks w) = trace w ++ tr ∧ tables tr = [].
Proof.
  revert w. induction chunks as [|len chunks IH]; intros w.
  { split_and!; [done..|by exists []; rewrite app_nil_r]. }
  rewrite stream_cons.
  destruct (IH (emit_data env w len)) as (Ht & Hs & tr2 & Htr2 & Hok2).
  destruct (emit_data_frame w len) as (Ht1 & Hs1 & tr1 & Htr1 & Hok1).
  split_and!.
  - by rewrite Ht.
  - intros Hsome. rewrite Hs; [by apply Hs1|]. by rewrite Hs1.
  - exists (tr1 ++ tr2). split; [by rewrite Htr2, Htr1, app_assoc|].
    by rewrite tables_app, Hok1, Hok2.
Qed.

End Stream.

(** ** The method check *)

(** C8. A request whose method is not POST is answered 405 with the header
    [Allow: POST]; the table, the disk and the request stream are as they
    were, and no collaborator was called. *)
Theorem C8_method_not_allowed (env : Env) (req : Request)
    (t : list BannerImage) (d : gmap string N) :
  method req ≠ "POST" →
  let w' := serve env req (arrive t d) in
  sent (res w') = Some (405, BodyE "Method Not Allowed") ∧
  headers (res w') = [("Allow", "POST")] ∧
  bannerImage w' = t ∧ disk w' = d ∧ trace w' = [] ∧
  destroyed w' = false ∧ upload w' = None ∧ uncaught w' = [].
Proof.
  intros Hm. unfold serve, exec, handler.
  rewrite bool_decide_eq_false_2 by done.
  unfold_prims. simpl. by rewrite stream_no_listener.
Qed.

Lemma C8_method_not_allowed_witness :
  method get_declared_large ≠ "POST" ∧
  let w' := serve env_open get_declared_large (arrive table0 disk0) in
  sent (res w') = Some (405, BodyE "Method Not Allowed") ∧
  headers (res w') = [("Allow", "POST")] ∧
  bannerImage w' = table0 ∧ disk w' = disk0 ∧ trace w' = [] ∧
  destroyed w' = false ∧ upload w' = None ∧ uncaught w' = [].
Proof.
  split; [done|].
  apply (C8_method_not_allowed env_open get_declared_large table0 disk0). done.
Defined.

(** ** The edit lock *)

(** C7, as stated, fails: a GET request meets the method check first and is
    answered 405 although editing is locked. *)
Lemma C7_counterexample :
  editing_forbidden env_locked ∧
  sent (res (serve env_locked get_declared_large (arrive table0 disk0)))
    = Some (405, BodyE "Method Not Allowed").
Proof. by vm_compute. Qed.

(** C7, amended. For every POST request, when the Config Store answers that
    [forbidEditing] is true the response is 400, whatever the payload, and
    nothing follows the lookup: no session is resolved, no row is looked up
    or changed, no file is touched, the body is not read. *)
Theorem C7_editing_forbidden (env : Env) (req : Request)
    (t : list BannerImage) (d : gmap string N) :
  method req = "POST" →
  editing_forbidden env →
  let w' := serve env req (arrive t d) in
  sent (res w') =
    Some (400, BodyE "Bad Request: Project editing is not currently allowed") ∧
  trace w' = [EConfigFind "forbidEditing"] ∧
  bannerImage w' = t ∧ disk w' = d ∧
  destroyed w' = false ∧ upload w' = None ∧ uncaught w' = [].
Proof.
  intros Hm [Hf Hc]. enter_post Hm. rewrite Hf, Hc. simpl.
  by rewrite stream_no_listener.
Qed.

Lemma C7_editing_forbidden_witness :
  method post_small = "POST" ∧
  editing_forbidden env_locked ∧
  let w' := serve env_locked post_small (arrive table0 disk0) in
  sent (res w') =
    Some (400, BodyE "Bad Request: Project editing is not currently allowed") ∧
  trace w' = [EConfigFind "forbidEditing"] ∧
  bannerImage w' = table0 ∧ disk w' = disk0 ∧
  destroyed w' = false ∧ upload w' = None ∧ uncaught w' = [].
Proof.
  split; [reflexivity|]. split; [by vm_compute|].
  apply (C7_editing_forbidden env_locked post_small table0 disk0);
    [reflexivity | by vm_compute].
Defined.

(** ** The declared length *)

(** C4, as stated, fails: a declared length above the limit is answered 405
    when the method is not POST, 400 when editing is locked, and 500 when the
    Config Store throws; all three checks come before line 35. *)
Lemma C4_counterexample :
  content_length get_declared_large = Some 6000000 ∧
  content_length post_declared_large = Some 6000000 ∧
  sent (res (serve env_open get_declared_large (arrive table0 disk0)))
    = Some (405, BodyE "Method Not Allowed") ∧
  sent (res (serve env_locked post_declared_large (arrive table0 disk0)))
    = Some (400, BodyE "Bad Request: Project editing is not currently allowed") ∧
  sent (res (serve (env_failing OConfigFind "connection refused")
               post_declared_large (arrive table0 disk0)))
    = Some (500, BodyE "Internal Server Error").
Proof. by vm_compute. Qed.

(** C4, amended. For every request whose declared content-length exceeds
    5,000,000: no file is written, no row changes, and neither the Session
    Resolver nor the banner lookup is consulted; and when the request is a
    POST and the Config Store answers that editing is not locked, the
    response is 413. *)
Theorem C4_declared_too_large (env : Env) (req : Request)
    (t : list BannerImage) (d : gmap string N) (n : N) :
  content_length req = Some n →
  maxSize < n →
  let w' := serve env req (arrive t d) in
  (disk w' = d ∧ bannerImage w' = t ∧
   (∀ p, ECreateWriteStream p ∉ trace w') ∧
   (EGetSession ∉ trace w') ∧ (∀ e, EUserFind e ∉ trace w')) ∧
  (method req = "POST" → editing_allowed env →
   sent (res w') = Some (413, BodyE "Resource size exceeds limit (5MB)")).
Proof.
  intros Hn Hlt. apply N.ltb_lt in Hlt.
  unfold serve, exec, handler, handler_try, editing_allowed.
  destruct (decide (method req = "POST")) as [Hm|Hm].
  - rewrite (bool_decide_eq_true_2 _ Hm). unfold_prims. simpl.
    rewrite Hn. simpl. rewrite Hlt.
    destruct (fault env OConfigFind) as [e|]; simpl.
    { rewrite stream_no_listener by done. simpl.
      split; [split_and!; [done..|not_in_trace|not_in_trace|not_in_trace]|].
      by intros _ [? _]. }
    destruct (strictly_true (systemConfigSetting env !! "forbidEditing")) eqn:Hst;
      simpl; rewrite stream_no_listener by done; simpl;
      (split; [split_and!; [done..|not_in_trace|not_in_trace|not_in_trace]|]);
      [intros _ [_ Hne]|done].
    destruct (systemConfigSetting env !! "forbidEditing") as [[| [] | |]|];
      done.
  - rewrite (bool_decide_eq_false_2 _ Hm). unfold_prims. simpl.
    rewrite stream_no_listener by done. simpl.
    split; [split_and!; [done..|not_in_trace|not_in_trace|not_in_trace]|done].
Qed.

Lemma C4_declared_too_large_witness :
  content_length post_declared_large = Some 6000000 ∧
  maxSize < 6000000 ∧
  method post_declared_large = "POST" ∧
  editing_allowed env_open ∧
  let w' := serve env_open post_declared_large (arrive table0 disk0) in
  (disk w' = disk0 ∧ bannerImage w' = table0 ∧
   (∀ p, ECreateWriteStream p ∉ trace w') ∧
   (EGetSession ∉ trace w') ∧ (∀ e, EUserFind e ∉ trace w')) ∧
  sent (res w') = Some (413, BodyE "Resource size exceeds limit (5MB)").
Proof.
  assert (Ha : editing_allowed env_open) by (split; [reflexivity|by vm_compute]).
  destruct (C4_declared_too_large env_open post_declared_large table0 disk0
              6000000 eq_refl eq_refl) as [Hframe Hstatus].
  do 3 (split; [reflexivity|]). split; [exact Ha|]. split; [exact Hframe|].
  apply Hstatus; [reflexivity|exact Ha].
Defined.

(** ** The session *)

(** C5, as stated, fails: without a session the answer is 405 when the
    method is not POST, 400 when editing is locked and 413 when the declared
    length is above the limit; the three checks come before line 38. *)
Lemma C5_counterexample :
  no_session env_anonymous ∧ no_session env_locked_anonymous ∧
  sent (res (serve env_anonymous get_declared_large (arrive table0 disk0)))
    = Some (405, BodyE "Method Not Allowed") ∧
  sent (res (serve env_locked_anonymous post_small (arrive table0 disk0)))
    = Some (400, BodyE "Bad Request: Project editing is not currently allowed") ∧
  sent (res (serve env_anonymous post_declared_large (arrive table0 disk0)))
    = Some (413, BodyE "Resource size exceeds limit (5MB)").
Proof. by vm_compute. Qed.

(** C5, amended. For every request for which the Session Resolver finds no
    session: no row is deleted or created and no file is written or removed;
    and when the request is a POST, the Config Store answers that editing is
    not locked and the declared content-length is absent or at most
    5,000,000, the response is 401. *)
Theorem C5_unauthorized (env : Env) (req : Request)
    (t : list BannerImage) (d : gmap string N) :
  no_session env →
  let w' := serve env req (arrive t d) in
  (bannerImage w' = t ∧ disk w' = d ∧
   Forall (λ e, is_mutation e = false) (trace w')) ∧
  (method req = "POST" → editing_allowed env → declared_within_limit req →
   sent (res w') = Some (401, BodyE "Unauthorized")).
Proof.
  intros [Hf Hs].
  unfold serve, exec, handler, handler_try, editing_allowed,
    declared_within_limit.
  destruct (decide (method req = "POST")) as [Hm|Hm].
  - rewrite (bool_decide_eq_true_2 _ Hm). unfold_prims. simpl.
    rewrite Hf, Hs.
    destruct (fault env OConfigFind) as [e|]; simpl.
    { rewrite stream_no_listener by done. simpl.
      split; [split_and!; [done..|by repeat constructor]|]. by intros _ [? _]. }
    destruct (strictly_true (systemConfigSetting env !! "forbidEditing")) eqn:Hst;
      simpl.
    { rewrite stream_no_listener by done. simpl.
      split; [split_and!; [done..|by repeat constructor]|].
      intros _ [_ Hne].
      by destruct (systemConfigSetting env !! "forbidEditing") as [[| [] | |]|]. }
    destruct (maxSize <? default 0 (content_length req)) eqn:Hlt;
      simpl; rewrite stream_no_listener by done; simpl;
      (split; [split_and!; [done..|by repeat constructor]|]); [|done].
    intros _ _ Hle. apply N.ltb_lt in Hlt. lia.
  - rewrite (bool_decide_eq_false_2 _ Hm). unfold_prims. simpl.
    rewrite stream_no_listener by done. simpl.
    split; [split_and!; [done..|by repeat constructor]|done].
Qed.

Lemma C5_unauthorized_witness :
  no_session env_anonymous ∧
  method post_small = "POST" ∧
  editing_allowed env_anonymous ∧
  declared_within_limit post_small ∧
  let w' := serve env_anonymous post_small (arrive table0 disk0) in
  (bannerImage w' = table0 ∧ disk w' = disk0 ∧
   Forall (λ e, is_mutation e = false) (trace w')) ∧
  sent (res w') = Some (401, BodyE "Unauthorized").
Proof.
  assert (Hn : no_session env_anonymous) by (split; reflexivity).
  assert (Ha : editing_allowed env_anonymous)
    by (split; [reflexivity|by vm_compute]).
  assert (Hd : declared_within_limit post_small) by (by vm_compute).
  destruct (C5_unauthorized env_anonymous post_small table0 disk0 Hn)
    as [Hframe Hstatus].
  split; [exact Hn|]. split; [reflexivity|]. split; [exact Ha|].
  split; [exact Hd|]. split; [exact Hframe|].
  apply Hstatus; [reflexivity|exact Ha|exact Hd].
Defined.

(** ** The handler, path by path *)

Ltac in_trace :=
  solve [repeat first [apply list_elem_of_here | apply list_elem_of_further]].

Lemma insertable_checks (env : Env) (b : BannerImage) (t : list BannerImage) :
  has_id (id b) t = false →
  uniqueProject env && has_project (projectId b) t = false →
  insertable env b t.
Proof.
  unfold has_id, has_project, insertable. intros Hi Hp.
  apply bool_decide_eq_false in Hi. split; [done|].
  intros Hu. rewrite Hu in Hp. simpl in Hp.
  by apply bool_decide_eq_false in Hp.
Qed.

(** A POST request is turned away, or it has a session and then either a
    collaborator throws on the way or the handler reaches line 96. *)
Lemma handler_paths (env : Env) (req : Request)
    (t : list BannerImage) (d : gmap string N) :
  method req = "POST" →
  let w1 := exec (handler env req) (arrive t d) in
  turned_away t d w1 ∨
  ∃ s, getServerSession env = Some s ∧
       (failed_midway env s t w1 ∨ accepted env s t w1).
Proof.
  intros Hm w1. subst w1.
  run_post Hm.
  all: try (left; unfold turned_away; wsimpl; split_and!;
            [done..|by repeat constructor|by eexists _, _]).
  all: right; eexists; (split; [eassumption|]).
  all: unfold failed_midway, accepted, progress, without_current; wsimpl.
  all: repeat match goal with
              | H : current_banner _ _ _ = _ |- _ => rewrite H
              end.
  all: try match goal with
           | H1 : has_id _ _ = false, H2 : _ && _ = false |- _ =>
               pose proof (insertable_checks _ _ _ H1 H2)
           end.
  all: simpl.
  all: first
    [ (* the new row was created and the response is 200 *)
      right; split_and!;
      [ done | done | done | by repeat constructor; auto
      | in_trace | in_trace
      | first [ by intros ? [=] | intros ? [= <-]; split; in_trace ]
      | done | by rewrite lookup_insert_eq | done | done | done ]
    | (* a collaborator threw *)
      left; split_and!; [done..|];
      first [ by left
            | by right; left
            | right; right; split_and!;
              [done|done|by repeat constructor; auto] ] ].
Qed.

(** ** The listener, chunk by chunk *)

Section Listener.

Variable env : Env.

(** One chunk while the response has been sent: either the running count
    stays within the limit and the listener only counts, or the guard of
    line 85 fires: the request is destroyed and unpiped, the file is
    unlinked, and [res.json] throws because the response went out before. *)
Lemma emit_data_step w u len :
  upload w = Some u →
  destroyed w = false →
  is_Some (sent (res w)) →
  let w' := emit_data env w len in
  (size u + len ≤ maxSize ∧ destroyed w' = false ∧
   trace w' = trace w ∧ uncaught w' = uncaught w ∧
   upload w' = Some {| filename := filename u; size := size u + len;
                       successful := successful u; piped := piped u |} ∧
   (∀ n, piped u = true → disk w !! filename u = Some n →
         disk w' !! filename u = Some (n + len))) ∨
  (maxSize < size u + len ∧ destroyed w' = true ∧
   trace w' = trace w ++ [EReqDestroy; EReqUnpipe; EUnlink (filename u)] ∧
   (fault env OUnlinkPartial = None → disk w' !! filename u = None) ∧
   "ERR_HTTP_HEADERS_SENT" ∈ uncaught w').
Proof.
  intros Hu Hd [r Hs]. unfold emit_data, on_data, pipe_write. unfold_prims.
  rewrite Hd, Hu. wsimpl.
  destruct (maxSize <? size u + len) eqn:Hlt.
  - apply N.ltb_lt in Hlt. right.
    destruct (fault env OUnlinkPartial) as [e|] eqn:Hf; wsimpl;
      [|destruct (disk w !! filename u) as [n|] eqn:Hl; wsimpl];
      rewrite Hs; wsimpl;
      (split_and!; [done|done|by rewrite <- !app_assoc| |]);
      try done; try (by intros _; apply lookup_delete_eq);
      rewrite !elem_of_app, !list_elem_of_singleton; auto.
  - apply N.ltb_ge in Hlt. left. wsimpl.
    destruct (piped u) eqn:Hp; wsimpl; [|by split_and!].
    destruct (disk w !! filename u) as [k|] eqn:Hl; wsimpl;
      (split_and!; [done..|]); intros n _ [= <-].
    by rewrite lookup_insert_eq.
Qed.

(** A body that stays within the limit is counted and, through the pipe,
    appended to the file. *)
Lemma stream_within chunks w u :
  upload w = Some u →
  destroyed w = false →
  is_Some (sent (res w)) →
  size u + received chunks ≤ maxSize →
  let wf := stream env chunks w in
  destroyed wf = false ∧ trace wf = trace w ∧ uncaught wf = uncaught w ∧
  (∀ n, piped u = true → disk w !! filename u = Some n →
        disk wf !! filename u = Some (n + received chunks)).
Proof.
  revert w u. induction chunks as [|len chunks IH]; intros w u Hu Hd Hs Hle.
  { split_and!; [done..|]. intros n _ Hn. simpl. by rewrite N.add_0_r. }
  simpl in Hle. rewrite stream_cons.
  destruct (emit_data_step w u len Hu Hd Hs)
    as [(Hle1 & Hd1 & Ht1 & Hx1 & Hu1 & Hw1)|(Hlt1 & _)]; [|lia].
  destruct (emit_data_frame env w len) as (_ & Hs1 & _).
  destruct (IH (emit_data env w len) _ Hu1 Hd1) as (Hd2 & Ht2 & Hx2 & Hw2).
  - by rewrite Hs1.
  - simpl. lia.
  - split_and!; [done|by rewrite Ht2|by rewrite Hx2|].
    intros n Hp Hn. simpl in Hw2.
    rewrite (Hw2 (n + len) Hp (Hw1 n Hp Hn)). f_equal. simpl. lia.
Qed.

(** A body that exceeds the limit trips the guard. *)
Lemma stream_overflow chunks w u :
  upload w = Some u →
  destroyed w = false →
  is_Some (sent (res w)) →
  size u ≤ maxSize →
  maxSize < size u + received chunks →
  let wf := stream env chunks w in
  destroyed wf = true ∧
  EReqDestroy ∈ trace wf ∧ EUnlink (filename u) ∈ trace wf ∧
  (fault env OUnlinkPartial = None → disk wf !! filename u = None) ∧
  "ERR_HTTP_HEADERS_SENT" ∈ uncaught wf.
Proof.
  revert w u. induction chunks as [|len chunks IH];
    intros w u Hu Hd Hs Hle Hlt; simpl in Hlt; [lia|].
  rewrite stream_cons.
  destruct (emit_data_step w u len Hu Hd Hs)
    as [(Hle1 & Hd1 & Ht1 & Hx1 & Hu1 & _)|(Hlt1 & Hd1 & Ht1 & Hl1 & Hx1)].
  - destruct (emit_data_frame env w len) as (_ & Hs1 & _).
    apply (IH (emit_data env w len) _ Hu1 Hd1); simpl; [by rewrite Hs1|lia..].
  - simpl. rewrite stream_destroyed by done. rewrite Ht1.
    split_and!; [done| | |done|done];
      rewrite elem_of_app; right; in_trace.
Qed.

End Listener.

(** ** Rows and projects *)

Lemma banner_of_Some p t b : banner_of p t = Some b → b ∈ t ∧ projectId b = p.
Proof.
  unfold banner_of. intros [Hin Hp]%find_some.
  split; [by apply list_elem_of_In|by apply bool_decide_eq_true in Hp].
Qed.

Lemma banner_of_None p t : banner_of p t = None → p ∉ projectId <$> t.
Proof.
  unfold banner_of. intros Hnone (b & -> & Hin)%list_elem_of_fmap.
  apply list_elem_of_In in Hin.
  pose proof (find_none _ _ Hnone b Hin) as Hb. simpl in Hb.
  by apply bool_decide_eq_false in Hb.
Qed.

(** Under the invariant a project determines its row. *)
Lemma at_most_one_inj t x y :
  at_most_one_per_project t →
  x ∈ t → y ∈ t → projectId x = projectId y → x = y.
Proof.
  unfold at_most_one_per_project.
  induction t as [|z t IH]; intros Hnd Hx Hy Hp; [by apply elem_of_nil in Hx|].
  rewrite fmap_cons in Hnd. apply NoDup_cons in Hnd as [Hz Hnd].
  apply elem_of_cons in Hx as [->|Hx]; apply elem_of_cons in Hy as [->|Hy].
  - done.
  - destruct Hz. rewrite Hp. by apply list_elem_of_fmap_2.
  - destruct Hz. rewrite <- Hp. by apply list_elem_of_fmap_2.
  - by apply IH.
Qed.

Lemma at_most_one_filter (P : BannerImage → Prop) `{∀ x, Decision (P x)} t :
  at_most_one_per_project t → at_most_one_per_project (filter P t).
Proof.
  unfold at_most_one_per_project.
  induction t as [|z t IH]; intros Hnd; [done|].
  rewrite fmap_cons in Hnd. apply NoDup_cons in Hnd as [Hz Hnd].
  rewrite filter_cons. destruct (decide (P z)); [|by apply IH].
  rewrite fmap_cons. apply NoDup_cons. split; [|by apply IH].
  intros (b & Hb & Hin%list_elem_of_filter)%list_elem_of_fmap.
  apply Hz. rewrite Hb. apply list_elem_of_fmap_2. tauto.
Qed.

Lemma filter_none {A} (P : A → Prop) `{∀ x, Decision (P x)} (l : list A) :
  (∀ x, x ∈ l → ¬ P x) → filter P l = [].
Proof.
  induction l as [|x l IH]; intros Hl; [done|].
  rewrite filter_cons_False by (apply Hl; left).
  apply IH. intros y Hy. apply Hl. by right.
Qed.

Lemma at_most_one_snoc t b :
  at_most_one_per_project t →
  projectId b ∉ projectId <$> t →
  at_most_one_per_project (t ++ [b]).
Proof.
  unfold at_most_one_per_project. intros Hnd Hb.
  rewrite fmap_app. apply NoDup_app. split_and!; [done| |by apply NoDup_singleton].
  intros p Hp ->%list_elem_of_singleton. done.
Qed.

Section Replace.

Variable env : Env.
Variable s : Session.
Variable t : list BannerImage.

Lemma at_most_one_without_current :
  at_most_one_per_project t → at_most_one_per_project (without_current env s t).
Proof.
  intros Hnd. unfold without_current.
  destruct (current_banner env (s_email s) t); [|done].
  by apply at_most_one_filter.
Qed.

(** When the session names the project of the caller's user row, lines
    52-57 leave no row for that project. *)
Lemma without_current_free :
  at_most_one_per_project t →
  project_of env (s_email s) = Some (s_projectId s) →
  s_projectId s ∉ projectId <$> without_current env s t.
Proof.
  intros Hnd Hp. unfold without_current, current_banner. rewrite Hp.
  destruct (banner_of (s_projectId s) t) as [old|] eqn:Hb;
    [|by apply banner_of_None].
  apply banner_of_Some in Hb as [Hold Hpo].
  intros (x & Hx & [Hne Hin]%list_elem_of_filter)%list_elem_of_fmap.
  apply Hne. f_equal. apply (at_most_one_inj t); [done..|congruence].
Qed.

End Replace.

(** ** A whole request *)

Lemma no_tables_no_delete tr :
  tables tr = [] →
  forallb (λ e, match e with EBannerDelete _ _ => false | _ => true end) tr = true.
Proof.
  induction tr as [|e tr IH]; [done|].
  change (e :: tr) with ([e] ++ tr). rewrite tables_app.
  destruct e; simpl; try done; by intros [=].
Qed.

Lemma no_tables_ordered tr : tables tr = [] → delete_before_create tr = true.
Proof.
  induction tr as [|e tr IH]; [done|].
  change (e :: tr) with ([e] ++ tr). rewrite tables_app.
  destruct e; simpl; try done; by intros [=].
Qed.

(** Events that are no mutation of the table keep the order. *)
Lemma delete_before_create_app tr1 tr2 :
  delete_before_create tr1 = true →
  tables tr2 = [] →
  delete_before_create (tr1 ++ tr2) = true.
Proof.
  intros H1 H2. induction tr1 as [|e tr1 IH]; [by apply no_tables_ordered|].
  destruct e; simpl in *; try (by apply IH).
  rewrite forallb_app, H1. by rewrite no_tables_no_delete.
Qed.

Lemma tables_no_mutation tr :
  Forall (λ e, is_mutation e = false) tr → tables tr = [].
Proof.
  induction 1 as [|e tr He _ IH]; [done|].
  change (e :: tr) with ([e] ++ tr). rewrite tables_app, IH. by destruct e.
Qed.

Section Serve.

Variable env : Env.
Variable req : Request.
Variable t : list BannerImage.
Variable d : gmap string N.

Let w1 := exec (handler env req) (arrive t d).
Let wf := serve env req (arrive t d).

(** The same three outcomes, whatever the method. *)
Lemma handler_outcomes :
  turned_away t d w1 ∨
  ∃ s, getServerSession env = Some s ∧
       (failed_midway env s t w1 ∨ accepted env s t w1).
Proof.
  destruct (decide (method req = "POST")) as [Hm|Hm];
    [by apply handler_paths|].
  left. subst w1. unfold exec, handler, turned_away.
  rewrite (bool_decide_eq_false_2 _ Hm). unfold_prims. wsimpl.
  split_and!; [done..|by eexists _, _].
Qed.

(** A request that was not accepted is over when the handler returns. *)
Lemma serve_turned_away : turned_away t d w1 → wf = w1.
Proof.
  intros (_ & _ & Hu & _). subst wf w1. unfold serve.
  by rewrite stream_no_listener.
Qed.

Lemma serve_failed_midway s : failed_midway env s t w1 → wf = w1.
Proof.
  intros (_ & Hu & _). subst wf w1. unfold serve.
  by rewrite stream_no_listener.
Qed.

(** What the body can still change after the handler accepted. *)
Lemma serve_accepted s :
  accepted env s t w1 →
  sent (res wf) = Some (200, BodyUrl (image_url (createId env))) ∧
  bannerImage wf = without_current env s t ++ [new_row env s] ∧
  tables (trace wf) = tables (trace w1) ∧
  (∀ e, e ∈ trace w1 → e ∈ trace wf) ∧
  delete_before_create (trace wf) = true.
Proof.
  intros (Hs & _ & Ht & Hrest). subst wf. unfold serve. fold w1.
  destruct (stream_frame env (body req) w1) as (Hb & Hsent & tr & Htr & Htb).
  split_and!.
  - rewrite Hsent; [done|]. by rewrite Hs.
  - by rewrite Hb.
  - by rewrite Htr, tables_app, Htb, app_nil_r.
  - intros e He. rewrite Htr, elem_of_app. by left.
  - rewrite Htr. apply delete_before_create_app; [|done].
    by destruct Hrest as (_ & _ & _ & _ & _ & _ & _ & _ & ?).
Qed.

End Serve.

(** ** The stored URL and the returned URL *)

(** C6. When the response is 200, its body is [{ url }] with the [url]
    field of the row the handler has just created, and that row is in the
    table. *)
Theorem C6_url_round_trip (env : Env) (req : Request)
    (t : list BannerImage) (d : gmap string N) (body : Body) :
  let wf := serve env req (arrive t d) in
  sent (res wf) = Some (200, body) →
  ∃ b after,
    EBannerCreate b after ∈ trace wf ∧
    b ∈ bannerImage wf ∧
    id b = createId env ∧
    url b = image_url (id b) ∧
    body = BodyUrl (url b).
Proof.
  intros wf Hs. subst wf.
  destruct (handler_outcomes env req t d)
    as [Ha|(s & Hsess & [Hf|Hacc])].
  - rewrite (serve_turned_away _ _ _ _ Ha) in Hs.
    destruct Ha as (_ & _ & _ & _ & _ & _ & n & e & Hsent & Hn). congruence.
  - rewrite (serve_failed_midway _ _ _ _ _ Hf) in Hs.
    destruct Hf as (Hsent & _). congruence.
  - destruct (serve_accepted _ _ _ _ _ Hacc) as (Hsent & Hb & _ & Htr & _).
    destruct Hacc as (_ & _ & _ & _ & Hcreate & _).
    exists (new_row env s), (without_current env s t ++ [new_row env s]).
    split_and!; [by apply Htr| |done|done|].
    + rewrite Hb, elem_of_app, list_elem_of_singleton. by right.
    + rewrite Hsent in Hs. by injection Hs as <-.
Qed.

Lemma C6_url_round_trip_witness :
  let wf := serve env_open post_small (arrive table0 disk0) in
  sent (res wf) = Some (200, BodyUrl "/api/res/images/new") ∧
  ∃ b after,
    EBannerCreate b after ∈ trace wf ∧
    b ∈ bannerImage wf ∧
    id b = createId env_open ∧
    url b = image_url (id b) ∧
    BodyUrl "/api/res/images/new" = BodyUrl (url b).
Proof.
  split; [by vm_compute|].
  apply (C6_url_round_trip env_open post_small table0 disk0).
  by vm_compute.
Defined.

(** ** Replacing a banner *)

(** C2. A caller whose project has a banner uploads successfully: after the
    request no row carries the old identifier, the unlink of the old file
    was issued, and the rows of the project are exactly the one new row,
    whose identifier is the one [createId] has just returned. The caller's
    project is the one the session names and the user row points to; the
    table had at most one row per project, and [createId] returned an
    identifier that was not in it. *)
Theorem C2_replaces_banner (env : Env) (req : Request)
    (t : list BannerImage) (d : gmap string N)
    (s : Session) (old : BannerImage) (body : Body) :
  let wf := serve env req (arrive t d) in
  getServerSession env = Some s →
  project_of env (s_email s) = Some (s_projectId s) →
  banner_of (s_projectId s) t = Some old →
  at_most_one_per_project t →
  createId env ∉ id <$> t →
  sent (res wf) = Some (200, body) →
  (∀ b, b ∈ bannerImage wf → id b ≠ id old) ∧
  (∃ after, EBannerDelete (id old) after ∈ trace wf) ∧
  EUnlink (upload_path (id old)) ∈ trace wf ∧
  ECreateId ∈ trace wf ∧
  filter (λ b, projectId b = s_projectId s) (bannerImage wf) = [new_row env s].
Proof.
  intros wf Hsess Hproj Hold Hinv Hfresh Hs. subst wf.
  assert (Hcur : current_banner env (s_email s) t = Some old)
    by (unfold current_banner; by rewrite Hproj).
  destruct (handler_outcomes env req t d)
    as [Ha|(s' & Hsess' & [Hf|Hacc])].
  - rewrite (serve_turned_away _ _ _ _ Ha) in Hs.
    destruct Ha as (_ & _ & _ & _ & _ & _ & n & e & Hsent & Hn). congruence.
  - rewrite (serve_failed_midway _ _ _ _ _ Hf) in Hs.
    destruct Hf as (Hsent & _). congruence.
  - assert (s' = s) as -> by congruence.
    destruct (serve_accepted _ _ _ _ _ Hacc) as (_ & Hb & _ & Htr & _).
    destruct Hacc as (_ & _ & _ & _ & _ & Hid & Hdel & _).
    destruct (Hdel old Hcur) as [Hd Hu].
    pose proof (without_current_free env s t Hinv Hproj) as Hfree.
    apply banner_of_Some in Hold as [Hin Hp].
    rewrite Hb. split_and!.
    + intros b [Hb'| ->%list_elem_of_singleton]%elem_of_app.
      * unfold without_current in Hb'. rewrite Hcur in Hb'.
        by apply list_elem_of_filter in Hb' as [? _].
      * simpl. intros Heq. apply Hfresh. rewrite Heq.
        by apply list_elem_of_fmap_2.
    + eexists. by apply Htr.
    + by apply Htr.
    + by apply Htr.
    + rewrite filter_app, filter_cons_True, filter_nil by done.
      rewrite (filter_none _ (without_current env s t)); [done|].
      intros x Hx Hpx. apply Hfree. rewrite <- Hpx.
      by apply list_elem_of_fmap_2.
Qed.

Lemma C2_replaces_banner_witness :
  let wf := serve env_open post_small (arrive table0 disk0) in
  getServerSession env_open = Some alice_session ∧
  project_of env_open (s_email alice_session) = Some (s_projectId alice_session) ∧
  banner_of (s_projectId alice_session) table0 = Some old_banner ∧
  at_most_one_per_project table0 ∧
  (createId env_open ∉ id <$> table0) ∧
  sent (res wf) = Some (200, BodyUrl "/api/res/images/new") ∧
  (∀ b, b ∈ bannerImage wf → id b ≠ id old_banner) ∧
  (∃ after, EBannerDelete (id old_banner) after ∈ trace wf) ∧
  EUnlink (upload_path (id old_banner)) ∈ trace wf ∧
  ECreateId ∈ trace wf ∧
  filter (λ b, projectId b = s_projectId alice_session) (bannerImage wf)
    = [new_row env_open alice_session].
Proof.
  assert (Hinv : at_most_one_per_project table0)
    by (apply NoDup_singleton).
  assert (Hfresh : createId env_open ∉ id <$> table0)
    by (by intros [=]%list_elem_of_singleton).
  do 3 (split; [reflexivity|]). split; [exact Hinv|]. split; [exact Hfresh|].
  split; [by vm_compute|].
  apply (C2_replaces_banner env_open post_small table0 disk0 alice_session
           old_banner (BodyUrl "/api/res/images/new"));
    [reflexivity|reflexivity|reflexivity|exact Hinv|exact Hfresh|by vm_compute].
Defined.

(** ** One banner per project *)

(** C3. If the table has at most one row per project when a request
    arrives, so has every table the request goes through and the table it
    leaves, on every path of the handler and whatever body follows; and no
    row is deleted after a row has been created. The project a session names
    is the project of its user row, or else the schema declares [projectId]
    unique. *)
Theorem C3_at_most_one_banner (env : Env) (req : Request)
    (t : list BannerImage) (d : gmap string N) :
  let wf := serve env req (arrive t d) in
  at_most_one_per_project t →
  session_consistent env ∨ uniqueProject env = true →
  at_most_one_per_project (bannerImage wf) ∧
  Forall at_most_one_per_project (tables (trace wf)) ∧
  delete_before_create (trace wf) = true.
Proof.
  intros wf Hinv Hkey. subst wf.
  destruct (handler_outcomes env req t d)
    as [Ha|(s & Hsess & Hrest)].
  { rewrite (serve_turned_away _ _ _ _ Ha).
    destruct Ha as (-> & _ & _ & _ & _ & Hmut & _).
    pose proof (tables_no_mutation _ Hmut) as Htb. rewrite Htb.
    split_and!; [done|done|by apply no_tables_ordered]. }
  pose proof (at_most_one_without_current env s t Hinv) as Hinv'.
  assert (Hnew : insertable env (new_row env s) (without_current env s t) →
                 at_most_one_per_project
                   (without_current env s t ++ [new_row env s])).
  { intros [_ Huniq]. apply at_most_one_snoc; [done|].
    destruct Hkey as [Hcons|Hu]; [|by apply Huniq].
    apply without_current_free; [done|by apply Hcons]. }
  assert (Hall : insertable env (new_row env s) (without_current env s t) →
                 ∀ ts, Forall (λ x, x = without_current env s t ∨
                                    x = without_current env s t ++ [new_row env s]) ts →
                       Forall at_most_one_per_project ts).
  { intros Hins ts Hts. eapply Forall_impl; [exact Hts|].
    intros x [->| ->]; auto. }
  destruct Hrest as [Hf|Hacc].
  - rewrite (serve_failed_midway _ _ _ _ _ Hf).
    destruct Hf as (_ & _ & _ & _ & Hord & [(-> & ->)|[(-> & ->)|(Hins & -> & Hts)]]).
    + done.
    + split_and!; [done| |done]. by repeat constructor.
    + split_and!; [by apply Hnew|by apply Hall|done].
  - destruct (serve_accepted _ _ _ _ _ Hacc) as (_ & -> & -> & _ & Hord).
    destruct Hacc as (_ & Hins & _ & Hts & _).
    split_and!; [by apply Hnew|by apply Hall|done].
Qed.

Lemma C3_at_most_one_banner_witness :
  let wf := serve env_open post_small (arrive table0 disk0) in
  at_most_one_per_project table0 ∧
  (session_consistent env_open ∨ uniqueProject env_open = true) ∧
  at_most_one_per_project (bannerImage wf) ∧
  Forall at_most_one_per_project (tables (trace wf)) ∧
  delete_before_create (trace wf) = true.
Proof.
  assert (Hinv : at_most_one_per_project table0)
    by (apply NoDup_singleton).
  assert (Hkey : session_consistent env_open ∨ uniqueProject env_open = true)
    by (right; reflexivity).
  split; [exact Hinv|]. split; [exact Hkey|].
  apply (C3_at_most_one_banner env_open post_small table0 disk0 Hinv Hkey).
Defined.

(** ** Exceptions *)




(** Each collaborator the handler awaits can be the one that throws: the
    Config Store, ... *)
Lemma config_failure_throws (env : Env) (req : Request) (w : World) (e : string) :
  fault env OConfigFind = Some e → throws (handler_try env req) w e.
Proof.
  intros Hf. unfold throws, handler_try. unfold_prims. wsimpl.
  rewrite Hf. by eexists.
Qed.

(** ... and the Session Resolver. *)
Lemma session_failure_throws (env : Env) (req : Request) (w : World) (e : string) :
  editing_allowed env → declared_within_limit req →
  fault env OGetSession = Some e → throws (handler_try env req) w e.
Proof.
  intros [Hc Hne] Hle Hf. unfold throws, handler_try. unfold_prims. wsimpl.
  rewrite Hc.
  replace (strictly_true _) with false
    by (by destruct (systemConfigSetting env !! "forbidEditing")
             as [[| [] | |]|]).
  replace (maxSize <? _) with false
    by (symmetry; by apply N.ltb_ge).
  rewrite Hf. by eexists.
Qed.

(** ** The guard of line 85 *)

Section Guard.

Variable env : Env.
Variable req : Request.
Variable t : list BannerImage.
Variable d : gmap string N.

Let w1 := exec (handler env req) (arrive t d).
Let wf := serve env req (arrive t d).

(** After the handler accepted, a body above the limit trips the guard when
    the response has gone out: the client keeps the 200, the request is
    destroyed, the file is unlinked, and the 413 of line 89 ends in an
    exception nobody catches. *)
Lemma accepted_overflow s :
  accepted env s t w1 →
  maxSize < received (body req) →
  sent (res wf) = Some (200, BodyUrl (image_url (createId env))) ∧
  destroyed wf = true ∧
  EUnlink (upload_path (createId env)) ∈ trace wf ∧
  (fault env OUnlinkPartial = None →
   disk wf !! upload_path (createId env) = None) ∧
  "ERR_HTTP_HEADERS_SENT" ∈ uncaught wf.
Proof.
  intros Hacc Hlt.
  destruct (serve_accepted env req t d s Hacc) as (Hsent & _).
  destruct Hacc as (Hs & _ & _ & _ & _ & _ & _ & Hu & _ & Hd & _).
  destruct (stream_overflow env (body req) w1 _ Hu Hd)
    as (Hd' & _ & Hunl & Hdisk & Hx); [by rewrite Hs|done|done|].
  done.
Qed.

(** After the handler accepted, a body within the limit leaves the request
    alone and ends up in the file. *)
Lemma accepted_within s :
  accepted env s t w1 →
  received (body req) ≤ maxSize →
  destroyed wf = false ∧ uncaught wf = [] ∧
  disk wf !! upload_path (createId env) = Some (received (body req)).
Proof.
  intros Hacc Hle.
  destruct Hacc as (Hs & _ & _ & _ & _ & _ & _ & Hu & Hfile & Hd & Hx & _).
  destruct (stream_within env (body req) w1 _ Hu Hd)
    as (Hd' & _ & Hx' & Hw); [by rewrite Hs|done|].
  split_and!; [done|by rewrite <- Hx|].
  by apply (Hw 0).
Qed.

End Guard.

(** C10. When the guard has fired (the request was destroyed), the body was
    above the limit, the row created at line 68 is still in the table, the
    unlink of its file was issued, and, unless that unlink failed, the file
    is gone: the table keeps a row without a file. *)
Theorem C10_row_outlives_file (env : Env) (req : Request)
    (t : list BannerImage) (d : gmap string N) :
  let wf := serve env req (arrive t d) in
  destroyed wf = true →
  maxSize < received (body req) ∧
  ∃ s, getServerSession env = Some s ∧
       new_row env s ∈ bannerImage wf ∧
       (∃ after, EBannerCreate (new_row env s) after ∈ trace wf) ∧
       EUnlink (upload_path (id (new_row env s))) ∈ trace wf ∧
       (fault env OUnlinkPartial = None →
        disk wf !! upload_path (id (new_row env s)) = None).
Proof.
  intros wf Hd. subst wf.
  destruct (handler_outcomes env req t d)
    as [Ha|(s & Hsess & [Hf|Hacc])].
  - rewrite (serve_turned_away _ _ _ _ Ha) in Hd.
    destruct Ha as (_ & _ & _ & Hd' & _). congruence.
  - rewrite (serve_failed_midway _ _ _ _ _ Hf) in Hd.
    destruct Hf as (_ & _ & Hd' & _). congruence.
  - destruct (decide (received (body req) ≤ maxSize)) as [Hle|Hlt].
    { destruct (accepted_within _ _ _ _ _ Hacc Hle) as (Hd' & _). congruence. }
    apply N.nle_gt in Hlt. split; [done|].
    destruct (accepted_overflow _ _ _ _ _ Hacc Hlt) as (_ & _ & Hunl & Hdisk & _).
    destruct (serve_accepted _ _ _ _ _ Hacc) as (_ & Hb & _ & Htr & _).
    destruct Hacc as (_ & _ & _ & _ & Hcreate & _).
    exists s. split_and!; [done| |by eexists; apply Htr|done|done].
    rewrite Hb, elem_of_app, list_elem_of_singleton. by right.
Qed.

Lemma C10_row_outlives_file_witness :
  let wf := serve env_open post_overflow (arrive table0 disk0) in
  destroyed wf = true ∧
  fault env_open OUnlinkPartial = None ∧
  maxSize < received (body post_overflow) ∧
  ∃ s, getServerSession env_open = Some s ∧
       new_row env_open s ∈ bannerImage wf ∧
       (∃ after, EBannerCreate (new_row env_open s) after ∈ trace wf) ∧
       EUnlink (upload_path (id (new_row env_open s))) ∈ trace wf ∧
       disk wf !! upload_path (id (new_row env_open s)) = None.
Proof.
  assert (Hd : destroyed (serve env_open post_overflow (arrive table0 disk0))
               = true) by (by vm_compute).
  destruct (C10_row_outlives_file env_open post_overflow table0 disk0 Hd)
    as (Hlt & s & Hs & Hin & Hcr & Hunl & Hdisk).
  split; [exact Hd|]. split; [reflexivity|]. split; [exact Hlt|].
  exists s. split; [exact Hs|]. split; [exact Hin|]. split; [exact Hcr|].
  split; [exact Hunl|]. apply Hdisk. reflexivity.
Defined.

(** ** A body above the limit *)

(** With a session, editing open, a declared length within the limit, no
    collaborator failing and the new row insertable, the handler accepts. *)
Lemma handler_accepts (env : Env) (req : Request)
    (t : list BannerImage) (d : gmap string N) (s : Session) :
  method req = "POST" →
  editing_allowed env →
  declared_within_limit req →
  getServerSession env = Some s →
  (∀ op, fault env op = None) →
  insertable env (new_row env s) (without_current env s t) →
  accepted env s t (exec (handler env req) (arrive t d)).
Proof.
  intros Hm [_ Hne] Hle Hsess Hok [Hid Hpid].
  unfold exec, handler. rewrite (bool_decide_eq_true_2 _ Hm).
  unfold handler_try. unfold_prims. wsimpl.
  rewrite !Hok, Hsess.
  replace (strictly_true _) with false
    by (by destruct (systemConfigSetting env !! "forbidEditing")
             as [[| [] | |]|]).
  replace (maxSize <? _) with false by (symmetry; by apply N.ltb_ge).
  wsimpl.
  assert (Hcheck : ∀ t', t' = without_current env s t →
            has_id (createId env) t' = false ∧
            uniqueProject env && has_project (s_projectId s) t' = false).
  { intros t' ->. unfold has_id, has_project. split.
    - by apply bool_decide_eq_false.
    - destruct (uniqueProject env); [|done]. simpl.
      apply bool_decide_eq_false. by apply Hpid. }
  unfold accepted. unfold without_current in *.
  destruct (current_banner env (s_email s) t) as [old|] eqn:Hcur; wsimpl.
  - assert (Hin : has_id (id old) t = true).
    { unfold current_banner in Hcur.
      destruct (project_of env (s_email s)); [|done].
      apply banner_of_Some in Hcur as [Hin _].
      apply bool_decide_eq_true. by apply list_elem_of_fmap_2. }
    rewrite Hin. destruct (Hcheck _ eq_refl) as [Hc1 Hc2].
    destruct (_ !! upload_path (id old)); wsimpl; cbn [id projectId];
      rewrite Hc1, Hc2; wsimpl;
      (split_and!;
       [ done | done | done | by repeat constructor; auto
       | in_trace | in_trace | intros ? [= <-]; split; in_trace
       | done | by rewrite lookup_insert_eq | done | done | done ]).
  - destruct (Hcheck _ eq_refl) as [Hc1 Hc2]. cbn [id projectId].
    rewrite Hc1, Hc2. wsimpl.
    split_and!;
      [ done | done | done | by repeat constructor; auto
      | in_trace | in_trace | by intros ? [=]
      | done | by rewrite lookup_insert_eq | done | done | done ].
Qed.

(** For every POST request with a session, editing open, no declared length
    above the limit and healthy collaborators, a body above 5,000,000 bytes
    is answered 200 with the URL, not 413. *)
Lemma overflow_answers_200 (env : Env) (req : Request)
    (t : list BannerImage) (d : gmap string N) (s : Session) :
  let wf := serve env req (arrive t d) in
  method req = "POST" →
  editing_allowed env →
  declared_within_limit req →
  getServerSession env = Some s →
  (∀ op, fault env op = None) →
  insertable env (new_row env s) (without_current env s t) →
  maxSize < received (body req) →
  sent (res wf) = Some (200, BodyUrl (image_url (createId env))) ∧
  destroyed wf = true ∧
  disk wf !! upload_path (createId env) = None ∧
  "ERR_HTTP_HEADERS_SENT" ∈ uncaught wf.
Proof.
  intros wf Hm Ha Hle Hsess Hok Hins Hlt.
  pose proof (handler_accepts env req t d s Hm Ha Hle Hsess Hok Hins) as Hacc.
  destruct (accepted_overflow _ _ _ _ _ Hacc Hlt) as (? & ? & _ & Hdisk & ?).
  split_and!; [done|done|by apply Hdisk|done].
Qed.

(** C1, on the code: a chunked POST of 5,000,001 bytes by a signed-in user
    is answered 200 with the URL of the new banner. The guard does fire: the
    request is destroyed and the partial file unlinked; its 413 comes after
    the response has been sent and ends in [ERR_HTTP_HEADERS_SENT]. *)
Theorem C1_overflow_answered_200 :
  let wf := serve env_open post_overflow (arrive table0 disk0) in
  content_length post_overflow = None ∧
  received (body post_overflow) = 5000001 ∧
  sent (res wf) = Some (200, BodyUrl "/api/res/images/new") ∧
  destroyed wf = true ∧
  disk wf !! upload_path "new" = None ∧
  EUnlink (upload_path "new") ∈ trace wf ∧
  uncaught wf = ["ERR_HTTP_HEADERS_SENT"].
Proof.
  cbv zeta. split_and!; try (by vm_compute).
  assert (Htr : trace (serve env_open post_overflow (arrive table0 disk0)) =
    [EConfigFind "forbidEditing"; EGetSession; EUserFind "alice@example.org";
     EBannerDelete "old" []; EUnlink (upload_path "old"); ECreateId;
     EBannerCreate new_banner [new_banner]; EMkdir "./data/uploads";
     ECreateWriteStream (upload_path "new"); EReqDestroy; EReqUnpipe;
     EUnlink (upload_path "new")]) by (by vm_compute).
  rewrite Htr. in_trace.
Qed.

(** ** What a status code tells *)

Lemma strictly_true_spec row :
  strictly_true row = true ↔ row = Some (JBool true).
Proof. destruct row as [[| [] | |]|]; simpl; split; congruence. Qed.

(** The response the handler sends to a POST request, and why. *)
Lemma handler_status (env : Env) (req : Request)
    (t : list BannerImage) (d : gmap string N) (n : N) (b : Body) :
  method req = "POST" →
  sent (res (exec (handler env req) (arrive t d))) = Some (n, b) →
  (n = 400 ∧ editing_forbidden env ∧
   b = BodyE "Bad Request: Project editing is not currently allowed") ∨
  (n = 413 ∧ editing_allowed env ∧ ¬ declared_within_limit req ∧
   b = BodyE "Resource size exceeds limit (5MB)") ∨
  (n = 401 ∧ editing_allowed env ∧ declared_within_limit req ∧
   no_session env ∧ b = BodyE "Unauthorized") ∨
  (n = 200 ∧ editing_allowed env ∧ declared_within_limit req ∧
   fault env OGetSession = None ∧ is_Some (getServerSession env) ∧
   b = BodyUrl (image_url (createId env))) ∨
  (n = 500 ∧ b = BodyE "Internal Server Error").
Proof.
  intros Hm. unfold editing_forbidden, editing_allowed, declared_within_limit,
    no_session.
  run_post Hm.
  all: intros [= <- <-].
  all: try (by repeat right).
  all: repeat match goal with
         | H : strictly_true _ = true |- _ => apply strictly_true_spec in H
         | H : strictly_true _ = false |- _ =>
             apply not_true_iff_false in H; rewrite strictly_true_spec in H
         | H : (_ <? _) = true |- _ => apply N.ltb_lt in H
         | H : (_ <? _) = false |- _ => apply N.ltb_ge in H
         end.
  all: first
    [ by left
    | right; left; split_and!; [done..|lia|done]
    | by right; right; left
    | right; right; right; left; split_and!; [done..|by eexists|done] ].
Qed.

Section Answer.

Variable env : Env.
Variable req : Request.
Variable t : list BannerImage.
Variable d : gmap string N.

Let w1 := exec (handler env req) (arrive t d).
Let wf := serve env req (arrive t d).

Lemma handler_answers : is_Some (sent (res w1)) ∧ uncaught w1 = [] ∧ destroyed w1 = false.
Proof.
  destruct (handler_outcomes env req t d) as [Ha|(s & _ & [Hf|Hacc])].
  - destruct Ha as (_ & _ & _ & ? & ? & _ & n & e & Hs & _).
    split_and!; [by eexists|done..].
  - destruct Hf as (Hs & _ & ? & ? & _). split_and!; [by eexists|done..].
  - destruct Hacc as (Hs & _ & _ & _ & _ & _ & _ & _ & _ & ? & ? & _).
    split_and!; [by eexists|done..].
Qed.

(** The body cannot change what the handler sent. *)
Lemma serve_sent : sent (res wf) = sent (res w1).
Proof.
  destruct (stream_frame env (body req) w1) as (_ & Hs & _).
  apply Hs, handler_answers.
Qed.

Lemma not_post_405 :
  method req ≠ "POST" → sent (res w1) = Some (405, BodyE "Method Not Allowed").
Proof.
  intros Hm. subst w1. unfold exec, handler.
  rewrite (bool_decide_eq_false_2 _ Hm). by unfold_prims.
Qed.

End Answer.

(** ** Extras: what the response tells *)

(** X1. Whatever the collaborators do, the handler returns with a response
    sent, no exception escaping and the request not destroyed; and what the
    body does afterwards changes neither the response nor the table. *)
Theorem X1_always_answers (env : Env) (req : Request)
    (t : list BannerImage) (d : gmap string N) :
  let w1 := exec (handler env req) (arrive t d) in
  let wf := serve env req (arrive t d) in
  is_Some (sent (res w1)) ∧ uncaught w1 = [] ∧ destroyed w1 = false ∧
  sent (res wf) = sent (res w1) ∧ bannerImage wf = bannerImage w1.
Proof.
  intros w1 wf.
  destruct (handler_answers env req t d) as (Hs & Hx & Hd).
  split_and!; [done|done|done|by apply serve_sent|].
  by destruct (stream_frame env (body req) w1) as (Hb & _).
Qed.

(** X2. The response is one of six status and body pairs, each a constant
    of the handler's text but for the identifier in the URL: no message of
    an exception and nothing of the request reaches the client. *)
Theorem X2_fixed_responses (env : Env) (req : Request)
    (t : list BannerImage) (d : gmap string N) :
  ∃ r, sent (res (serve env req (arrive t d))) = Some r ∧ r ∈ responses env.
Proof.
  rewrite serve_sent.
  destruct (handler_answers env req t d) as ([[n b] Hs] & _).
  exists (n, b). split; [done|]. unfold responses.
  destruct (decide (method req = "POST")) as [Hm|Hm].
  - destruct (handler_status env req t d n b Hm Hs)
      as [(-> & _ & ->)|[(-> & _ & _ & ->)|[(-> & _ & _ & _ & ->)|
          [(-> & _ & _ & _ & _ & ->)|(-> & ->)]]]]; in_trace.
  - rewrite (not_post_405 env req t d Hm) in Hs. injection Hs as <- <-.
    in_trace.
Qed.

(** X3. The status is 405 exactly when the method is not POST. *)
Theorem X3_405_iff_not_post (env : Env) (req : Request)
    (t : list BannerImage) (d : gmap string N) :
  (∃ b, sent (res (serve env req (arrive t d))) = Some (405, b)) ↔
  method req ≠ "POST".
Proof.
  rewrite serve_sent. split.
  - intros [b Hs] Hm.
    destruct (handler_status env req t d _ _ Hm Hs)
      as [(? & _)|[(? & _)|[(? & _)|[(? & _)|(? & _)]]]]; done.
  - intros Hm. eexists. by apply not_post_405.
Qed.

(** X4. A 400 means that the request was a POST and that the Config Store
    answered that [forbidEditing] is the boolean [true]. *)
Theorem X4_400_means_locked (env : Env) (req : Request)
    (t : list BannerImage) (d : gmap string N) (b : Body) :
  sent (res (serve env req (arrive t d))) = Some (400, b) →
  method req = "POST" ∧ editing_forbidden env.
Proof.
  rewrite serve_sent. intros Hs.
  destruct (decide (method req = "POST")) as [Hm|Hm].
  - split; [done|].
    destruct (handler_status env req t d _ _ Hm Hs)
      as [(_ & ? & _)|[(? & _)|[(? & _)|[(? & _)|(? & _)]]]]; done.
  - by rewrite (not_post_405 env req t d Hm) in Hs.
Qed.

Lemma X4_400_means_locked_witness :
  sent (res (serve env_locked post_small (arrive table0 disk0)))
    = Some (400, BodyE "Bad Request: Project editing is not currently allowed") ∧
  method post_small = "POST" ∧ editing_forbidden env_locked.
Proof.
  assert (Hs : sent (res (serve env_locked post_small (arrive table0 disk0)))
    = Some (400, BodyE "Bad Request: Project editing is not currently allowed"))
    by (by vm_compute).
  split; [exact Hs|].
  exact (X4_400_means_locked env_locked post_small table0 disk0 _ Hs).
Defined.

(** X5. A 413 means that the request was a POST, that editing was open and
    that the declared content-length was above 5,000,000: the client never
    sees the 413 of the listener. *)
Theorem X5_413_means_declared (env : Env) (req : Request)
    (t : list BannerImage) (d : gmap string N) (b : Body) :
  sent (res (serve env req (arrive t d))) = Some (413, b) →
  method req = "POST" ∧ editing_allowed env ∧
  ∃ n, content_length req = Some n ∧ maxSize < n.
Proof.
  rewrite serve_sent. intros Hs.
  destruct (decide (method req = "POST")) as [Hm|Hm].
  - split; [done|].
    destruct (handler_status env req t d _ _ Hm Hs)
      as [(? & _)|[(_ & ? & Hn & _)|[(? & _)|[(? & _)|(? & _)]]]]; try done.
    split; [done|]. unfold declared_within_limit in Hn.
    destruct (content_length req) as [n|]; simpl in Hn.
    + exists n. split; [done|lia].
    + destruct Hn. unfold maxSize. lia.
  - by rewrite (not_post_405 env req t d Hm) in Hs.
Qed.

Lemma X5_413_means_declared_witness :
  sent (res (serve env_open post_declared_large (arrive table0 disk0)))
    = Some (413, BodyE "Resource size exceeds limit (5MB)") ∧
  method post_declared_large = "POST" ∧ editing_allowed env_open ∧
  ∃ n, content_length post_declared_large = Some n ∧ maxSize < n.
Proof.
  assert (Hs : sent (res (serve env_open post_declared_large (arrive table0 disk0)))
    = Some (413, BodyE "Resource size exceeds limit (5MB)"))
    by (by vm_compute).
  split; [exact Hs|].
  exact (X5_413_means_declared env_open post_declared_large table0 disk0 _ Hs).
Defined.

(** X6. A 401 means that the request was a POST that passed the edit lock
    and the declared-length check, and that the Session Resolver answered
    that there is no session. *)
Theorem X6_401_means_no_session (env : Env) (req : Request)
    (t : list BannerImage) (d : gmap string N) (b : Body) :
  sent (res (serve env req (arrive t d))) = Some (401, b) →
  method req = "POST" ∧ editing_allowed env ∧ declared_within_limit req ∧
  no_session env.
Proof.
  rewrite serve_sent. intros Hs.
  destruct (decide (method req = "POST")) as [Hm|Hm].
  - split; [done|].
    destruct (handler_status env req t d _ _ Hm Hs)
      as [(? & _)|[(? & _)|[(_ & ? & ? & ? & _)|[(? & _)|(? & _)]]]]; done.
  - by rewrite (not_post_405 env req t d Hm) in Hs.
Qed.

Lemma X6_401_means_no_session_witness :
  sent (res (serve env_anonymous post_small (arrive table0 disk0)))
    = Some (401, BodyE "Unauthorized") ∧
  method post_small = "POST" ∧ editing_allowed env_anonymous ∧
  declared_within_limit post_small ∧ no_session env_anonymous.
Proof.
  assert (Hs : sent (res (serve env_anonymous post_small (arrive table0 disk0)))
    = Some (401, BodyE "Unauthorized"))
    by (by vm_compute).
  split; [exact Hs|].
  exact (X6_401_means_no_session env_anonymous post_small table0 disk0 _ Hs).
Defined.

(** ** The accepted upload, in full *)

Lemma current_banner_has_id env email t old :
  current_banner env email t = Some old → has_id (id old) t = true.
Proof.
  unfold current_banner. destruct (project_of env email); [|done].
  intros [Hin _]%banner_of_Some.
  apply bool_decide_eq_true. by apply list_elem_of_fmap_2.
Qed.

Lemma insertable_has env b t :
  insertable env b t →
  has_id (id b) t = false ∧
  uniqueProject env && has_project (projectId b) t = false.
Proof.
  intros [Hid Hpid]. unfold has_id, has_project. split.
  - by apply bool_decide_eq_false.
  - destruct (uniqueProject env); [|done]. simpl.
    apply bool_decide_eq_false. by apply Hpid.
Qed.

(** Walk a POST request with a session down to line 45. *)
Ltac walk_to_session Hm Ha Hle Hg Hsess :=
  unfold exec, handler; rewrite (bool_decide_eq_true_2 _ Hm);
  unfold handler_try; unfold_prims; wsimpl;
  let Hc := fresh in let Hne := fresh in
  destruct Ha as [Hc Hne];
  rewrite Hc;
  replace (strictly_true _) with false
    by (by destruct (systemConfigSetting _ !! "forbidEditing")
             as [[| [] | |]|]);
  replace (maxSize <? _) with false by (symmetry; by apply N.ltb_ge);
  rewrite Hg, Hsess; wsimpl.

(** When the awaited calls succeed, the handler accepts, whatever becomes
    of the unlink of the old file; a failure of that unlink is logged. *)
Lemma handler_accepts_awaited (env : Env) (req : Request)
    (t : list BannerImage) (d : gmap string N) (s : Session) :
  let w1 := exec (handler env req) (arrive t d) in
  method req = "POST" →
  editing_allowed env →
  declared_within_limit req →
  getServerSession env = Some s →
  succeed awaited env →
  insertable env (new_row env s) (without_current env s t) →
  accepted env s t w1 ∧
  disk w1 = <[upload_path (createId env) := 0]> (disk_without_current env s t d) ∧
  (∀ old e, current_banner env (s_email s) t = Some old →
            fault env OUnlinkOld = Some e → EConsoleError e ∈ trace w1).
Proof.
  intros w1 Hm Ha Hle Hsess Hok Hins. subst w1.
  assert (Hg : fault env OGetSession = None) by (apply Hok; in_trace).
  assert (Hu : fault env OUserFind = None) by (apply Hok; in_trace).
  assert (Hd : fault env OBannerDelete = None) by (apply Hok; in_trace).
  assert (Hi : fault env OCreateId = None) by (apply Hok; in_trace).
  assert (Hcr : fault env OBannerCreate = None) by (apply Hok; in_trace).
  assert (Hmk : fault env OMkdir = None) by (apply Hok; in_trace).
  apply insertable_has in Hins as [Hc1 Hc2].
  unfold accepted, disk_without_current, without_current, new_row in *.
  walk_to_session Hm Ha Hle Hg Hsess.
  rewrite Hu, Hi, Hcr, Hmk. wsimpl.
  destruct (current_banner env (s_email s) t) as [old|] eqn:Hcur; wsimpl.
  - rewrite Hd. wsimpl. rewrite (current_banner_has_id _ _ _ _ Hcur). wsimpl.
    destruct (fault env OUnlinkOld) as [e|] eqn:Hunl; wsimpl;
      [|destruct (_ !! upload_path (id old)) eqn:Hl; wsimpl];
      cbn [id projectId] in *; rewrite Hc1, Hc2; wsimpl;
      (split_and!;
       [ done | by apply insertable_checks | done | by repeat constructor; auto
       | in_trace | in_trace | intros ? [= <-]; split; in_trace
       | done | by rewrite lookup_insert_eq | done | done | done
       | try done; by rewrite delete_id
       | intros ? ? [= <-] [=]; subst; in_trace || done ]).
  - cbn [id projectId] in *. rewrite Hc1, Hc2. wsimpl.
    split_and!;
      [ done | by apply insertable_checks | done | by repeat constructor; auto
      | in_trace | in_trace | by intros ? [=]
      | done | by rewrite lookup_insert_eq | done | done | done
      | done | by intros ? ? [=] ].
Qed.

(** ** The file of the upload *)

Section Disk.

Variable env : Env.

(** A ['data'] event touches no file but the one of the upload, whose name
    it keeps. *)
Lemma emit_data_other_files w len p :
  (∀ u, upload w = Some u → filename u ≠ p) →
  disk (emit_data env w len) !! p = disk w !! p ∧
  (∀ u, upload (emit_data env w len) = Some u → filename u ≠ p).
Proof.
  intros Hp. unfold emit_data, on_data, pipe_write. unfold_prims.
  repeat (case_match; simplify_eq/=); split; try done;
    try (intros ? [= <-]; simpl; by eapply Hp);
    rewrite ?lookup_insert_ne, ?lookup_delete_ne by (by eapply Hp); try done;
    intros ?; congruence.
Qed.

Lemma stream_other_files chunks w p :
  (∀ u, upload w = Some u → filename u ≠ p) →
  disk (stream env chunks w) !! p = disk w !! p.
Proof.
  revert w. induction chunks as [|len chunks IH]; intros w Hp; [done|].
  rewrite stream_cons.
  destruct (emit_data_other_files w len p Hp) as [Hd Hp'].
  by rewrite IH.
Qed.

Lemma emit_data_bounded w len : bounded w → bounded (emit_data env w len).
Proof.
  intros [[r Hs] Hb]. unfold bounded, emit_data, on_data, pipe_write.
  unfold_prims.
  destruct (destroyed w) eqn:Hd; [split; [by eexists|by rewrite Hd]|].
  destruct (upload w) as [u|] eqn:Hu; wsimpl;
    [|split; [by eexists|intros ?; congruence]].
  specialize (Hb u eq_refl). destruct Hb as [Hle Hn].
  destruct (maxSize <? size u + len) eqn:Hlt; wsimpl.
  - destruct (fault env OUnlinkPartial); wsimpl;
      [|destruct (disk w !! filename u) as [k|] eqn:Hl; wsimpl];
      rewrite Hs; wsimpl; (split; [by eexists|]);
      intros ? [= <-]; simpl; intros m Hdisk.
    + specialize (Hn m Hdisk). lia.
    + by rewrite lookup_delete_eq in Hdisk.
    + congruence.
  - apply N.ltb_ge in Hlt.
    destruct (piped u); wsimpl;
      [destruct (disk w !! filename u) as [k|] eqn:Hl; wsimpl|];
      rewrite ?Hs, ?Hd; (split; [by eexists|]);
      intros ? [= <-]; simpl; (split; [done|]); intros m Hdisk.
    + rewrite lookup_insert_eq in Hdisk. injection Hdisk as <-.
      specialize (Hn k eq_refl). lia.
    + congruence.
    + specialize (Hn m Hdisk). lia.
Qed.

Lemma stream_bounded chunks w : bounded w → bounded (stream env chunks w).
Proof.
  revert w. induction chunks as [|len chunks IH]; intros w Hb; [done|].
  rewrite stream_cons. by apply IH, emit_data_bounded.
Qed.

End Disk.

(** ** Paths and URLs *)

Lemma list_ascii_of_string_app (x y : string) :
  String.list_ascii_of_string (x +:+ y) =
  (String.list_ascii_of_string x ++ String.list_ascii_of_string y)%list.
Proof. induction x as [|a x IH]; [done|]. simpl. by rewrite IH. Qed.

Lemma append_inj_l (s x y : string) : x +:+ s = y +:+ s → x = y.
Proof.
  intros H%(f_equal String.list_ascii_of_string).
  rewrite !list_ascii_of_string_app in H. apply app_inv_tail in H.
  by rewrite <- (String.string_of_list_ascii_of_string x),
             <- (String.string_of_list_ascii_of_string y), H.
Qed.

Lemma upload_path_inj i j : upload_path i = upload_path j → i = j.
Proof.
  unfold upload_path. intros H%(inj (String.app _)).
  by apply append_inj_l in H.
Qed.

Lemma image_url_inj i j : image_url i = image_url j → i = j.
Proof. unfold image_url. by intros H%(inj (String.app _)). Qed.

Lemma upload_path_ne i j : i ≠ j → upload_path i ≠ upload_path j.
Proof. intros Hne H. by apply Hne, upload_path_inj. Qed.

(** X7. Distinct identifiers have distinct files and distinct URLs: the
    file name and the URL each determine the identifier. *)
Theorem X7_paths_injective (i j : string) :
  (upload_path i = upload_path j ↔ i = j) ∧
  (image_url i = image_url j ↔ i = j).
Proof.
  split; (split; [|by intros ->]).
  - apply upload_path_inj.
  - apply image_url_inj.
Qed.

(** ** An upload within the limit *)

Section Keeps.

Variable env : Env.

Lemma emit_data_keeps_filename w len u :
  upload w = Some u →
  ∃ u', upload (emit_data env w len) = Some u' ∧ filename u' = filename u.
Proof.
  intros Hu. unfold emit_data, on_data, pipe_write. unfold_prims.
  repeat (case_match; simplify_eq/=); by eexists.
Qed.

Lemma stream_keeps_filename chunks w u :
  upload w = Some u →
  ∃ u', upload (stream env chunks w) = Some u' ∧ filename u' = filename u.
Proof.
  revert w u. induction chunks as [|len chunks IH]; intros w u Hu;
    [by exists u|].
  rewrite stream_cons.
  destruct (emit_data_keeps_filename w len u Hu) as (u1 & Hu1 & Hf1).
  destruct (IH _ _ Hu1) as (u2 & Hu2 & Hf2).
  exists u2. split; [done|congruence].
Qed.

End Keeps.

Lemma env_open_awaited : succeed awaited env_open.
Proof. by intros op _. Qed.

Lemma env_open_insertable :
  insertable env_open (new_row env_open alice_session)
    (without_current env_open alice_session table0).
Proof. split; [|intros _]; by intros ?%elem_of_nil. Qed.

Lemma env_open_allowed : editing_allowed env_open.
Proof. split; [reflexivity|by vm_compute]. Qed.

(** *** A body that is cut short *)

Lemma serve_delivered_with_body env req chunks w :
  serve_delivered env req chunks w = serve env (with_body req chunks) w.
Proof. reflexivity. Qed.

Lemma received_app l k : received (l ++ k) = received l + received k.
Proof. induction l as [|x l IH]; simpl; [done|]. rewrite IH. lia. Qed.

Lemma received_prefix l k : l `prefix_of` k → received l ≤ received k.
Proof. intros [m ->]. rewrite received_app. lia. Qed.

(** X8. A POST by a signed-in caller, with editing open, a declared length
    within the limit, the awaited collaborators answering and a body of at
    most 5,000,000 bytes is accepted: the response is 200 with the URL, the
    new row is in the table and the guard does not fire; and whatever prefix
    of the body reaches the listener, the file [./data/uploads/{id}.jpg]
    never holds more than the bytes that were delivered. *)
Theorem X8_upload_accepted (env : Env) (req : Request)
    (t : list BannerImage) (d : gmap string N) (s : Session)
    (chunks : list N) :
  let wf := serve_delivered env req chunks (arrive t d) in
  method req = "POST" →
  editing_allowed env →
  declared_within_limit req →
  getServerSession env = Some s →
  succeed awaited env →
  insertable env (new_row env s) (without_current env s t) →
  chunks `prefix_of` body req →
  received (body req) ≤ maxSize →
  sent (res wf) = Some (200, BodyUrl (image_url (createId env))) ∧
  new_row env s ∈ bannerImage wf ∧
  destroyed wf = false ∧
  received chunks ≤ received (body req) ∧
  (∀ n, disk wf !! upload_path (createId env) = Some n → n ≤ received chunks).
Proof.
  intros wf Hm Ha Hle Hsess Hok Hins Hpre Hsize. subst wf.
  rewrite serve_delivered_with_body.
  pose proof (received_prefix _ _ Hpre) as Hrec.
  destruct (handler_accepts_awaited env (with_body req chunks) t d s
              Hm Ha Hle Hsess Hok Hins) as (Hacc & _).
  destruct (serve_accepted _ _ _ _ _ Hacc) as (Hs & Hb & _).
  assert (Hsz : received (body (with_body req chunks)) ≤ maxSize)
    by (simpl; lia).
  destruct (accepted_within _ _ _ _ _ Hacc Hsz) as (Hd & _ & Hfile).
  split_and!; [done| |done|done|].
  - rewrite Hb, elem_of_app, list_elem_of_singleton. by right.
  - intros n Hn. rewrite Hfile in Hn. injection Hn as <-. simpl. lia.
Qed.

Lemma X8_upload_accepted_witness :
  let wf := serve_delivered env_open post_exact [5000000] (arrive table0 disk0) in
  method post_exact = "POST" ∧
  editing_allowed env_open ∧
  declared_within_limit post_exact ∧
  getServerSession env_open = Some alice_session ∧
  succeed awaited env_open ∧
  insertable env_open (new_row env_open alice_session)
    (without_current env_open alice_session table0) ∧
  [5000000] `prefix_of` body post_exact ∧
  received (body post_exact) ≤ maxSize ∧
  sent (res wf) = Some (200, BodyUrl (image_url (createId env_open))) ∧
  new_row env_open alice_session ∈ bannerImage wf ∧
  destroyed wf = false ∧
  received [5000000] ≤ received (body post_exact) ∧
  (∀ n, disk wf !! upload_path (createId env_open) = Some n → n ≤ received [5000000]).
Proof.
  assert (Hle : declared_within_limit post_exact) by (by vm_compute).
  assert (Hsz : received (body post_exact) ≤ maxSize) by (by vm_compute).
  assert (Hpre : [5000000] `prefix_of` body post_exact) by (by exists []).
  cbv zeta.
  split; [reflexivity|]. split; [exact env_open_allowed|].
  split; [exact Hle|]. split; [reflexivity|].
  split; [exact env_open_awaited|]. split; [exact env_open_insertable|].
  split; [exact Hpre|]. split; [exact Hsz|].
  exact (X8_upload_accepted env_open post_exact table0 disk0 alice_session [5000000]
           eq_refl env_open_allowed Hle eq_refl env_open_awaited
           env_open_insertable Hpre Hsz).
Defined.

(** X9. Once the handler has accepted, the guard of line 85 fires exactly
    when the chunks that reach the listener add up to more than 5,000,000
    bytes: 5,000,000 bytes pass, and a body that is cut short before the
    limit does not trip it. When it fires on a prefix of the body, the body
    is above the limit. *)
Theorem X9_guard_iff_delivered_above_limit (env : Env) (req : Request)
    (t : list BannerImage) (d : gmap string N) (s : Session)
    (chunks : list N) :
  let wf := serve_delivered env req chunks (arrive t d) in
  method req = "POST" →
  editing_allowed env →
  declared_within_limit req →
  getServerSession env = Some s →
  succeed awaited env →
  insertable env (new_row env s) (without_current env s t) →
  (destroyed wf = true ↔ maxSize < received chunks) ∧
  (chunks `prefix_of` body req → destroyed wf = true →
   maxSize < received (body req)).
Proof.
  intros wf Hm Ha Hle Hsess Hok Hins. subst wf.
  rewrite serve_delivered_with_body.
  destruct (handler_accepts_awaited env (with_body req chunks) t d s
              Hm Ha Hle Hsess Hok Hins) as (Hacc & _).
  assert (Hiff : destroyed (serve env (with_body req chunks) (arrive t d)) = true
                 ↔ maxSize < received chunks).
  { split.
    - intros Hd. apply N.nle_gt. intros Hsize.
      destruct (accepted_within _ _ _ _ _ Hacc Hsize) as (Hd' & _). congruence.
    - intros Hlt.
      by destruct (accepted_overflow _ _ _ _ _ Hacc Hlt) as (_ & ? & _). }
  split; [done|].
  intros Hpre%received_prefix Hd%Hiff. lia.
Qed.

Lemma X9_guard_iff_delivered_above_limit_witness :
  let wf := serve_delivered env_open post_overflow [4000000]
              (arrive table0 disk0) in
  method post_overflow = "POST" ∧
  editing_allowed env_open ∧
  declared_within_limit post_overflow ∧
  getServerSession env_open = Some alice_session ∧
  succeed awaited env_open ∧
  insertable env_open (new_row env_open alice_session)
    (without_current env_open alice_session table0) ∧
  (destroyed wf = true ↔ maxSize < received [4000000]) ∧
  ([4000000] `prefix_of` body post_overflow → destroyed wf = true →
   maxSize < received (body post_overflow)).
Proof.
  assert (Hle : declared_within_limit post_overflow) by (by vm_compute).
  cbv zeta.
  split; [reflexivity|]. split; [exact env_open_allowed|].
  split; [exact Hle|]. split; [reflexivity|].
  split; [exact env_open_awaited|]. split; [exact env_open_insertable|].
  exact (X9_guard_iff_delivered_above_limit env_open post_overflow table0
           disk0 alice_session [4000000] eq_refl env_open_allowed Hle eq_refl
           env_open_awaited env_open_insertable).
Defined.

(** X10. After a 200 the file of the returned URL never holds more than
    5,000,000 bytes, whatever the body and whether or not the unlink of the
    guard succeeds. *)
Theorem X10_file_within_limit (env : Env) (req : Request)
    (t : list BannerImage) (d : gmap string N) (b : Body) (n : N) :
  let wf := serve env req (arrive t d) in
  sent (res wf) = Some (200, b) →
  disk wf !! upload_path (createId env) = Some n →
  n ≤ maxSize.
Proof.
  intros wf Hs Hn. subst wf. rewrite serve_sent in Hs.
  destruct (handler_outcomes env req t d) as [Ha|(s & _ & [Hf|Hacc])].
  - destruct Ha as (_ & _ & _ & _ & _ & _ & k & e & Hsent & Hk). congruence.
  - destruct Hf as (Hsent & _). congruence.
  - destruct Hacc as (Hsent & _ & _ & _ & _ & _ & _ & Hu & Hfile & Hd & _).
    assert (Hb : bounded (exec (handler env req) (arrive t d))).
    { split; [by eexists|]. intros u Hu'. rewrite Hd.
      rewrite Hu in Hu'. injection Hu' as <-. simpl.
      split; [done|]. intros k Hk. rewrite Hfile in Hk. by injection Hk as <-. }
    apply (stream_bounded env (body req)) in Hb as [_ Hb].
    destruct (stream_keeps_filename env (body req) _ _ Hu) as (u' & Hu' & Hf').
    specialize (Hb u' Hu'). simpl in Hf'. rewrite Hf' in Hb.
    unfold serve in Hn.
    destruct (destroyed (stream _ _ _)); [by apply Hb|].
    destruct Hb as [Hle Hb]. specialize (Hb n Hn). lia.
Qed.

Lemma X10_file_within_limit_witness :
  let wf := serve env_open post_exact (arrive table0 disk0) in
  sent (res wf) = Some (200, BodyUrl "/api/res/images/new") ∧
  disk wf !! upload_path (createId env_open) = Some 5000000 ∧
  5000000 ≤ maxSize.
Proof.
  assert (Hs : sent (res (serve env_open post_exact (arrive table0 disk0)))
               = Some (200, BodyUrl "/api/res/images/new")) by (by vm_compute).
  assert (Hn : disk (serve env_open post_exact (arrive table0 disk0))
                 !! upload_path (createId env_open) = Some 5000000)
    by (by vm_compute).
  split; [exact Hs|]. split; [exact Hn|].
  exact (X10_file_within_limit env_open post_exact table0 disk0 _ _ Hs Hn).
Defined.

(** X11. A declared content-length within the limit is never looked at
    again: two requests with the same method and the same body, both
    declaring at most 5,000,000 bytes or nothing, leave the same world. *)
Theorem X11_declared_length_unused (env : Env) (req1 req2 : Request) (w : World) :
  method req1 = method req2 →
  body req1 = body req2 →
  declared_within_limit req1 →
  declared_within_limit req2 →
  serve env req1 w = serve env req2 w.
Proof.
  intros Hm Hb H1 H2. unfold serve. rewrite Hb. f_equal.
  unfold exec, handler, handler_try. cbv zeta. rewrite Hm.
  replace (maxSize <? default 0 (content_length req1)) with false
    by (symmetry; by apply N.ltb_ge).
  replace (maxSize <? default 0 (content_length req2)) with false
    by (symmetry; by apply N.ltb_ge).
  done.
Qed.

Lemma X11_declared_length_unused_witness :
  method post_small = method post_undeclared ∧
  body post_small = body post_undeclared ∧
  declared_within_limit post_small ∧
  declared_within_limit post_undeclared ∧
  serve env_open post_small (arrive table0 disk0) =
  serve env_open post_undeclared (arrive table0 disk0).
Proof.
  assert (H1 : declared_within_limit post_small) by (by vm_compute).
  assert (H2 : declared_within_limit post_undeclared) by (by vm_compute).
  split; [reflexivity|]. split; [reflexivity|]. split; [exact H1|].
  split; [exact H2|].
  exact (X11_declared_length_unused env_open post_small post_undeclared
           (arrive table0 disk0) eq_refl eq_refl H1 H2).
Defined.

(** ** Failures on the way *)

(** X12. The replacement is not atomic. When the caller has a banner and
    [bannerImage.create] throws after the delete went through, the response
    is 500, the old row stays deleted, no row was created and no file was
    opened: the caller is left without the banner it had. *)
Theorem X12_failed_create_loses_banner (env : Env) (req : Request)
    (t : list BannerImage) (d : gmap string N)
    (s : Session) (old : BannerImage) (e : string) :
  let wf := serve env req (arrive t d) in
  method req = "POST" →
  editing_allowed env →
  declared_within_limit req →
  getServerSession env = Some s →
  current_banner env (s_email s) t = Some old →
  succeed [OGetSession; OUserFind; OBannerDelete; OCreateId] env →
  fault env OBannerCreate = Some e →
  sent (res wf) = Some (500, BodyE "Internal Server Error") ∧
  bannerImage wf = filter (λ x, id x ≠ id old) t ∧
  (id old ∉ id <$> bannerImage wf) ∧
  tables (trace wf) = [filter (λ x, id x ≠ id old) t] ∧
  (∀ p, ECreateWriteStream p ∉ trace wf).
Proof.
  intros wf Hm Ha Hle Hsess Hcur Hok Hcr. subst wf.
  assert (Hg : fault env OGetSession = None) by (apply Hok; in_trace).
  assert (Hu : fault env OUserFind = None) by (apply Hok; in_trace).
  assert (Hd : fault env OBannerDelete = None) by (apply Hok; in_trace).
  assert (Hi : fault env OCreateId = None) by (apply Hok; in_trace).
  unfold serve. walk_to_session Hm Ha Hle Hg Hsess.
  rewrite Hu, Hi, Hcr, Hd. wsimpl. rewrite Hcur. wsimpl.
  rewrite (current_banner_has_id _ _ _ _ Hcur). wsimpl.
  assert (Hgone : id old ∉ id <$> filter (λ x, id x ≠ id old) t).
  { intros (x & Hx & [Hne _]%list_elem_of_filter)%list_elem_of_fmap. done. }
  destruct (fault env OUnlinkOld); wsimpl;
    [|destruct (_ !! upload_path (id old)); wsimpl];
    (rewrite stream_no_listener by done); wsimpl;
    (split_and!; [done|done|done|done|not_in_trace]).
Qed.

Lemma X12_failed_create_loses_banner_witness :
  let env := env_failing OBannerCreate "P1001: database unreachable" in
  let wf := serve env post_small (arrive table0 disk0) in
  method post_small = "POST" ∧
  editing_allowed env ∧
  declared_within_limit post_small ∧
  getServerSession env = Some alice_session ∧
  current_banner env (s_email alice_session) table0 = Some old_banner ∧
  succeed [OGetSession; OUserFind; OBannerDelete; OCreateId] env ∧
  fault env OBannerCreate = Some "P1001: database unreachable" ∧
  sent (res wf) = Some (500, BodyE "Internal Server Error") ∧
  bannerImage wf = filter (λ x, id x ≠ id old_banner) table0 ∧
  (id old_banner ∉ id <$> bannerImage wf) ∧
  tables (trace wf) = [filter (λ x, id x ≠ id old_banner) table0] ∧
  (∀ p, ECreateWriteStream p ∉ trace wf).
Proof.
  assert (Ha : editing_allowed
                 (env_failing OBannerCreate "P1001: database unreachable"))
    by (split; [reflexivity|by vm_compute]).
  assert (Hle : declared_within_limit post_small) by (by vm_compute).
  assert (Hok : succeed [OGetSession; OUserFind; OBannerDelete; OCreateId]
                  (env_failing OBannerCreate "P1001: database unreachable")).
  { intros op Hop. simpl. unfold fault_at.
    destruct (decide (op = OBannerCreate)) as [->|]; [|reflexivity].
    exfalso. revert Hop. rewrite !elem_of_cons, elem_of_nil.
    intros [H|[H|[H|[H|[]]]]]; discriminate H. }
  cbv zeta.
  split; [reflexivity|]. split; [exact Ha|]. split; [exact Hle|].
  split; [reflexivity|]. split; [reflexivity|]. split; [exact Hok|].
  split; [reflexivity|].
  exact (X12_failed_create_loses_banner
           (env_failing OBannerCreate "P1001: database unreachable")
           post_small table0 disk0 alice_session old_banner
           "P1001: database unreachable"
           eq_refl Ha Hle eq_refl eq_refl Hok eq_refl).
Defined.

(** X13. The row is created before the directory and the file are. When
    [mkdir] throws, the response is 500 and the row created at line 68
    stays in the table although no file was ever opened for it. *)
Theorem X13_failed_mkdir_keeps_row (env : Env) (req : Request)
    (t : list BannerImage) (d : gmap string N) (s : Session) (e : string) :
  let wf := serve env req (arrive t d) in
  method req = "POST" →
  editing_allowed env →
  declared_within_limit req →
  getServerSession env = Some s →
  succeed [OGetSession; OUserFind; OBannerDelete; OCreateId; OBannerCreate] env →
  insertable env (new_row env s) (without_current env s t) →
  fault env OMkdir = Some e →
  sent (res wf) = Some (500, BodyE "Internal Server Error") ∧
  bannerImage wf = without_current env s t ++ [new_row env s] ∧
  upload wf = None ∧
  (∀ p, ECreateWriteStream p ∉ trace wf).
Proof.
  intros wf Hm Ha Hle Hsess Hok Hins Hmk. subst wf.
  assert (Hg : fault env OGetSession = None) by (apply Hok; in_trace).
  assert (Hu : fault env OUserFind = None) by (apply Hok; in_trace).
  assert (Hd : fault env OBannerDelete = None) by (apply Hok; in_trace).
  assert (Hi : fault env OCreateId = None) by (apply Hok; in_trace).
  assert (Hcr : fault env OBannerCreate = None) by (apply Hok; in_trace).
  apply insertable_has in Hins as [Hc1 Hc2].
  unfold without_current, new_row in *.
  unfold serve. walk_to_session Hm Ha Hle Hg Hsess.
  rewrite Hu, Hi, Hcr, Hmk. wsimpl.
  destruct (current_banner env (s_email s) t) as [old|] eqn:Hcur; wsimpl.
  - rewrite Hd. wsimpl. rewrite (current_banner_has_id _ _ _ _ Hcur). wsimpl.
    destruct (fault env OUnlinkOld); wsimpl;
      [|destruct (_ !! upload_path (id old)); wsimpl];
      cbn [id projectId] in *; rewrite Hc1, Hc2; wsimpl;
      (rewrite stream_no_listener by done); wsimpl;
      (split_and!; [done|done|done|not_in_trace]).
  - cbn [id projectId] in *. rewrite Hc1, Hc2. wsimpl.
    rewrite stream_no_listener by done. wsimpl.
    split_and!; [done|done|done|not_in_trace].
Qed.

Lemma X13_failed_mkdir_keeps_row_witness :
  let env := env_failing OMkdir "EACCES: permission denied" in
  let wf := serve env post_small (arrive table0 disk0) in
  method post_small = "POST" ∧
  editing_allowed env ∧
  declared_within_limit post_small ∧
  getServerSession env = Some alice_session ∧
  succeed [OGetSession; OUserFind; OBannerDelete; OCreateId; OBannerCreate] env ∧
  insertable env (new_row env alice_session)
    (without_current env alice_session table0) ∧
  fault env OMkdir = Some "EACCES: permission denied" ∧
  sent (res wf) = Some (500, BodyE "Internal Server Error") ∧
  bannerImage wf =
    without_current env alice_session table0 ++ [new_row env alice_session] ∧
  upload wf = None ∧
  (∀ p, ECreateWriteStream p ∉ trace wf).
Proof.
  assert (Ha : editing_allowed (env_failing OMkdir "EACCES: permission denied"))
    by (split; [reflexivity|by vm_compute]).
  assert (Hle : declared_within_limit post_small) by (by vm_compute).
  assert (Hok : succeed
            [OGetSession; OUserFind; OBannerDelete; OCreateId; OBannerCreate]
            (env_failing OMkdir "EACCES: permission denied")).
  { intros op Hop. simpl. unfold fault_at.
    destruct (decide (op = OMkdir)) as [->|]; [|reflexivity].
    exfalso. revert Hop. rewrite !elem_of_cons, elem_of_nil.
    intros [H|[H|[H|[H|[H|[]]]]]]; discriminate H. }
  assert (Hins : insertable (env_failing OMkdir "EACCES: permission denied")
            (new_row (env_failing OMkdir "EACCES: permission denied") alice_session)
            (without_current (env_failing OMkdir "EACCES: permission denied")
               alice_session table0)).
  { split; [|intros _]; by intros ?%elem_of_nil. }
  cbv zeta.
  split; [reflexivity|]. split; [exact Ha|]. split; [exact Hle|].
  split; [reflexivity|]. split; [exact Hok|]. split; [exact Hins|].
  split; [reflexivity|].
  exact (X13_failed_mkdir_keeps_row
           (env_failing OMkdir "EACCES: permission denied")
           post_small table0 disk0 alice_session "EACCES: permission denied"
           eq_refl Ha Hle eq_refl Hok Hins eq_refl).
Defined.

(** ** The old file *)

Section OldFile.

Variable env : Env.
Variable req : Request.
Variable t : list BannerImage.
Variable d : gmap string N.
Variable s : Session.
Variable old : BannerImage.

Hypothesis Hm : method req = "POST".
Hypothesis Ha : editing_allowed env.
Hypothesis Hle : declared_within_limit req.
Hypothesis Hsess : getServerSession env = Some s.
Hypothesis Hok : succeed awaited env.
Hypothesis Hins : insertable env (new_row env s) (without_current env s t).
Hypothesis Hcur : current_banner env (s_email s) t = Some old.
Hypothesis Hfresh : createId env ≠ id old.

Let wf := serve env req (arrive t d).

(** After an accepted replacement the old row is gone and the new one is
    there; of the old file is left what lines 59-63 left. *)
Lemma replaced :
  sent (res wf) = Some (200, BodyUrl (image_url (createId env))) ∧
  (id old ∉ id <$> bannerImage wf) ∧
  new_row env s ∈ bannerImage wf ∧
  disk wf !! upload_path (id old) =
    disk_without_current env s t d !! upload_path (id old) ∧
  (∀ e, fault env OUnlinkOld = Some e → EConsoleError e ∈ trace wf) ∧
  (received (body req) ≤ maxSize →
   disk wf !! upload_path (createId env) = Some (received (body req))).
Proof.
  destruct (handler_accepts_awaited env req t d s Hm Ha Hle Hsess Hok Hins)
    as (Hacc & Hdisk & Hlog).
  destruct (serve_accepted _ _ _ _ _ Hacc) as (Hs & Hb & _ & Htr & _).
  split_and!.
  - done.
  - fold wf in Hb. rewrite Hb. unfold without_current. rewrite Hcur.
    rewrite fmap_app.
    intros [(x & Hx & [Hne _]%list_elem_of_filter)%list_elem_of_fmap
           |Heq%list_elem_of_singleton]%elem_of_app; simpl in *; congruence.
  - fold wf in Hb. rewrite Hb, elem_of_app, list_elem_of_singleton. by right.
  - unfold wf, serve. rewrite stream_other_files.
    + rewrite Hdisk. apply lookup_insert_ne. by apply upload_path_ne.
    + destruct Hacc as (_ & _ & _ & _ & _ & _ & _ & Hu & _).
      intros u. rewrite Hu. intros [= <-]. simpl. by apply upload_path_ne.
  - intros e He. apply Htr. by eapply Hlog.
  - intros Hsize. by destruct (accepted_within _ _ _ _ _ Hacc Hsize) as (_ & _ & ?).
Qed.

End OldFile.

(** X14. A failure to delete the old file is tolerated: when the unlink of
    lines 59-63 fails, the upload still succeeds with 200, the error goes to
    [console.error], the old row is gone, and the old file stays on the disk
    as it was. *)
Theorem X14_stale_file_tolerated (env : Env) (req : Request)
    (t : list BannerImage) (d : gmap string N)
    (s : Session) (old : BannerImage) (e : string) :
  let wf := serve env req (arrive t d) in
  method req = "POST" →
  editing_allowed env →
  declared_within_limit req →
  getServerSession env = Some s →
  succeed awaited env →
  insertable env (new_row env s) (without_current env s t) →
  current_banner env (s_email s) t = Some old →
  createId env ≠ id old →
  fault env OUnlinkOld = Some e →
  sent (res wf) = Some (200, BodyUrl (image_url (createId env))) ∧
  EConsoleError e ∈ trace wf ∧
  (id old ∉ id <$> bannerImage wf) ∧
  disk wf !! upload_path (id old) = d !! upload_path (id old).
Proof.
  intros wf Hm Ha Hle Hsess Hok Hins Hcur Hfresh Hf. subst wf.
  destruct (replaced env req t d s old Hm Ha Hle Hsess Hok Hins Hcur Hfresh)
    as (Hs & Hgone & _ & Hdisk & Hlog & _).
  split_and!; [done|by apply Hlog|done|].
  rewrite Hdisk. unfold disk_without_current. by rewrite Hcur, Hf.
Qed.

Lemma env_unlink_fails_awaited :
  succeed awaited (env_failing OUnlinkOld "EBUSY: resource busy").
Proof.
  intros op Hop. simpl. unfold fault_at.
  destruct (decide (op = OUnlinkOld)) as [->|]; [|reflexivity].
  exfalso. revert Hop. unfold awaited. rewrite !elem_of_cons, elem_of_nil.
  intros [H|[H|[H|[H|[H|[H|[H|[]]]]]]]]; discriminate H.
Qed.

Lemma X14_stale_file_tolerated_witness :
  let env := env_failing OUnlinkOld "EBUSY: resource busy" in
  let wf := serve env post_small (arrive table0 disk0) in
  method post_small = "POST" ∧
  editing_allowed env ∧
  declared_within_limit post_small ∧
  getServerSession env = Some alice_session ∧
  succeed awaited env ∧
  insertable env (new_row env alice_session)
    (without_current env alice_session table0) ∧
  current_banner env (s_email alice_session) table0 = Some old_banner ∧
  createId env ≠ id old_banner ∧
  fault env OUnlinkOld = Some "EBUSY: resource busy" ∧
  sent (res wf) = Some (200, BodyUrl (image_url (createId env))) ∧
  EConsoleError "EBUSY: resource busy" ∈ trace wf ∧
  (id old_banner ∉ id <$> bannerImage wf) ∧
  disk wf !! upload_path (id old_banner) = disk0 !! upload_path (id old_banner).
Proof.
  assert (Ha : editing_allowed (env_failing OUnlinkOld "EBUSY: resource busy"))
    by (split; [reflexivity|by vm_compute]).
  assert (Hle : declared_within_limit post_small) by (by vm_compute).
  assert (Hins : insertable (env_failing OUnlinkOld "EBUSY: resource busy")
            (new_row (env_failing OUnlinkOld "EBUSY: resource busy") alice_session)
            (without_current (env_failing OUnlinkOld "EBUSY: resource busy")
               alice_session table0)).
  { split; [|intros _]; by intros ?%elem_of_nil. }
  assert (Hne : createId (env_failing OUnlinkOld "EBUSY: resource busy")
                ≠ id old_banner) by (by intros [=]).
  cbv zeta.
  split; [reflexivity|]. split; [exact Ha|]. split; [exact Hle|].
  split; [reflexivity|]. split; [exact env_unlink_fails_awaited|].
  split; [exact Hins|]. split; [reflexivity|]. split; [exact Hne|].
  split; [reflexivity|].
  exact (X14_stale_file_tolerated
           (env_failing OUnlinkOld "EBUSY: resource busy")
           post_small table0 disk0 alice_session old_banner
           "EBUSY: resource busy"
           eq_refl Ha Hle eq_refl env_unlink_fails_awaited Hins eq_refl Hne
           eq_refl).
Defined.

(** X15. After a replacement in which no awaited call and not the unlink of
    the old file fails, with a fresh identifier, the old row and the old
    file are gone and the new row is in the table, whatever part of the body
    reaches the listener. *)
Theorem X15_replacement_removes_old (env : Env) (req : Request)
    (t : list BannerImage) (d : gmap string N)
    (s : Session) (old : BannerImage) (chunks : list N) :
  let wf := serve_delivered env req chunks (arrive t d) in
  method req = "POST" →
  editing_allowed env →
  declared_within_limit req →
  getServerSession env = Some s →
  succeed awaited env →
  insertable env (new_row env s) (without_current env s t) →
  current_banner env (s_email s) t = Some old →
  createId env ≠ id old →
  fault env OUnlinkOld = None →
  sent (res wf) = Some (200, BodyUrl (image_url (createId env))) ∧
  (id old ∉ id <$> bannerImage wf) ∧
  disk wf !! upload_path (id old) = None ∧
  new_row env s ∈ bannerImage wf.
Proof.
  intros wf Hm Ha Hle Hsess Hok Hins Hcur Hfresh Hf. subst wf.
  rewrite serve_delivered_with_body.
  destruct (replaced env (with_body req chunks) t d s old
              Hm Ha Hle Hsess Hok Hins Hcur Hfresh)
    as (Hs & Hgone & Hnew & Hdisk & _ & _).
  split_and!; [done|done| |done].
  rewrite Hdisk. unfold disk_without_current. rewrite Hcur, Hf.
  apply lookup_delete_eq.
Qed.

Lemma X15_replacement_removes_old_witness :
  let wf := serve_delivered env_open post_small [3] (arrive table0 disk0) in
  method post_small = "POST" ∧
  editing_allowed env_open ∧
  declared_within_limit post_small ∧
  getServerSession env_open = Some alice_session ∧
  succeed awaited env_open ∧
  insertable env_open (new_row env_open alice_session)
    (without_current env_open alice_session table0) ∧
  current_banner env_open (s_email alice_session) table0 = Some old_banner ∧
  createId env_open ≠ id old_banner ∧
  fault env_open OUnlinkOld = None ∧
  sent (res wf) = Some (200, BodyUrl (image_url (createId env_open))) ∧
  (id old_banner ∉ id <$> bannerImage wf) ∧
  disk wf !! upload_path (id old_banner) = None ∧
  new_row env_open alice_session ∈ bannerImage wf.
Proof.
  assert (Hle : declared_within_limit post_small) by (by vm_compute).
  assert (Hne : createId env_open ≠ id old_banner) by (by intros [=]).
  cbv zeta.
  split; [reflexivity|]. split; [exact env_open_allowed|].
  split; [exact Hle|]. split; [reflexivity|].
  split; [exact env_open_awaited|]. split; [exact env_open_insertable|].
  split; [reflexivity|]. split; [exact Hne|]. split; [reflexivity|].
  exact (X15_replacement_removes_old env_open post_small table0 disk0
           alice_session old_banner [3] eq_refl env_open_allowed Hle eq_refl
           env_open_awaited env_open_insertable eq_refl Hne eq_refl).
Defined.

(** ** The project directory page *)

(** The visitor has a session with a non-empty email that names a user row
    flagged [isAdmin]. *)
Lemma userIsAdmin_spec (st : DirectoryStore) :
  userIsAdmin (getServerSideProps st) = true ↔
  ∃ e a, ds_session st = Some (Some e) ∧ e ≠ "" ∧
         account_of (ds_accounts st) e = Some a ∧ acc_isAdmin a = true.
Proof.
  unfold getServerSideProps, session_email. simpl. split.
  - destruct (ds_session st) as [[e|]|]; try done.
    case_bool_decide; [done|].
    destruct (account_of (ds_accounts st) e) as [a|] eqn:Ha; [|done].
    intros Hadm. by exists e, a.
  - intros (e & a & -> & Hne & Ha & Hadm).
    rewrite bool_decide_eq_false_2 by done. by rewrite Ha.
Qed.

Lemma truthy_value_or_false (row : option JsonValue) :
  truthy (value_or_false row) = false ↔
  row = None ∨ row = Some (Scalar JNull) ∨ row = Some (Scalar (JBool false)) ∨
  row = Some (Scalar (JNumber 0)) ∨ row = Some (Scalar (JString "")).
Proof.
  split.
  - destruct row as [[[| [] | z | s]|]|]; simpl; try done; auto.
    + intros Hz%negb_false_iff%Z.eqb_eq. subst. auto.
    + intros Hs%negb_false_iff%bool_decide_eq_true. subst. auto 6.
  - intros [->|[->|[->|[->| ->]]]]; done.
Qed.

(** X16. A visitor counts as administrator exactly when the session has a
    non-empty email and the user row with that email is flagged [isAdmin]:
    no session, a session without email, an empty email or an email without
    a user row never do. *)
Theorem X16_admin_iff (st : DirectoryStore) :
  userIsAdmin (getServerSideProps st) = true ↔
  ∃ e a, ds_session st = Some (Some e) ∧ e ≠ "" ∧
         a ∈ ds_accounts st ∧ acc_email a = e ∧ acc_isAdmin a = true ∧
         account_of (ds_accounts st) e = Some a.
Proof.
  rewrite userIsAdmin_spec. split.
  - intros (e & a & Hs & Hne & Ha & Hadm). exists e, a.
    pose proof Ha as [Hin He]%find_some.
    split_and!; [done|done|by apply list_elem_of_In| |done|done].
    by apply bool_decide_eq_true in He.
  - intros (e & a & Hs & Hne & _ & _ & Hadm & Ha). by exists e, a.
Qed.

(** X17. The directory counts as open exactly when the [directoryDisabled]
    setting is missing or is [null], [false], [0] or the empty string; every
    other stored value, the string ["false"] included, hides it. *)
Theorem X17_directory_open_iff (st : DirectoryStore) :
  truthy (directoryDisabled (getServerSideProps st)) = false ↔
  ds_settings st !! "directoryDisabled" ∈
    [None; Some (Scalar JNull); Some (Scalar (JBool false));
     Some (Scalar (JNumber 0)); Some (Scalar (JString ""))].
Proof.
  unfold getServerSideProps. simpl. rewrite truthy_value_or_false.
  rewrite !elem_of_cons, elem_of_nil. tauto.
Qed.

(** X18. The server and the page agree. When the directory is hidden from
    the visitor (disabled, and the visitor no administrator) the server
    sends no project and the page renders the notice without the filter;
    otherwise the server sends every project, in the order of the table, and
    the page renders the filter. The administrator's notice is rendered
    exactly for an administrator while the directory is disabled. *)
Theorem X18_server_and_page_agree (st : DirectoryStore)
    (tagKeys : list string) (selectedTag : option string) :
  let props := getServerSideProps st in
  let view := Projects tagKeys props selectedTag in
  let hidden := truthy (directoryDisabled props) && negb (userIsAdmin props) in
  (hidden = true →
   projects props = [] ∧ listing view = DirectoryDisabledNotice ∧
   filterBar view = None ∧ adminNotice view = false) ∧
  (hidden = false →
   projects props = light <$> ds_projects st ∧
   lp_id <$> projects props = p_id <$> ds_projects st ∧
   listing view ≠ DirectoryDisabledNotice ∧
   filterBar view = Some (visible_tags tagKeys selectedTag) ∧
   adminNotice view = truthy (directoryDisabled props)).
Proof.
  intros props view hidden. subst hidden view.
  assert (Hp : projects props =
               if negb (truthy (directoryDisabled props)) || userIsAdmin props
               then light <$> ds_projects st else []) by reflexivity.
  unfold Projects, showDirectory.
  cbn [adminNotice filterBar listing].
  destruct (truthy (directoryDisabled props)), (userIsAdmin props);
    simpl in *; rewrite Hp; (split; intros [=]).
  all: try (by split_and!).
  all: split_and!; [done| |by case_bool_decide|done|done].
  all: by rewrite <- list_fmap_compose.
Qed.

Lemma X18_server_and_page_agree_witness :
  let st := store_hidden (Some (Some "alice@example.org")) in
  let props := getServerSideProps st in
  let view := Projects ["WEB"; "AI"; "GAME"] props None in
  truthy (directoryDisabled props) && negb (userIsAdmin props) = true ∧
  projects props = [] ∧ listing view = DirectoryDisabledNotice ∧
  filterBar view = None ∧ adminNotice view = false.
Proof.
  assert (Hh : truthy (directoryDisabled (getServerSideProps
                 (store_hidden (Some (Some "alice@example.org"))))) &&
               negb (userIsAdmin (getServerSideProps
                 (store_hidden (Some (Some "alice@example.org"))))) = true)
    by (by vm_compute).
  cbv zeta. split; [exact Hh|].
  exact (proj1 (X18_server_and_page_agree
                  (store_hidden (Some (Some "alice@example.org")))
                  ["WEB"; "AI"; "GAME"] None) Hh).
Defined.

(** ** Cards and chips *)

Lemma filter_all {A} (P : A → Prop) `{∀ x, Decision (P x)} (l : list A) :
  (∀ x, x ∈ l → P x) → filter P l = l.
Proof.
  induction l as [|x l IH]; intros Hl; [done|].
  rewrite filter_cons_True by (apply Hl; left).
  f_equal. apply IH. intros y Hy. apply Hl. by right.
Qed.

Lemma filter_eq_NoDup (l : list string) (x : string) :
  NoDup l → x ∈ l → filter (λ y, y = x) l = [x].
Proof.
  induction 1 as [|y l Hy Hnd IH]; intros Hx; [by apply elem_of_nil in Hx|].
  destruct (decide (y = x)) as [->|Hne].
  - rewrite filter_cons_True by done. f_equal.
    apply filter_none. intros z Hz ->. done.
  - rewrite filter_cons_False by done. apply IH.
    apply elem_of_cons in Hx as [->|]; done.
Qed.

(** X19. A card is rendered only for a project of the table, under the
    selected tag if there is one, and only when the directory is open or the
    visitor an administrator; the cards keep the order of the table. *)
Theorem X19_cards_are_permitted (st : DirectoryStore)
    (tagKeys : list string) (selectedTag : option string)
    (ps : list LightProjectData) :
  let props := getServerSideProps st in
  listing (Projects tagKeys props selectedTag) = Cards ps →
  (truthy (directoryDisabled props) = false ∨ userIsAdmin props = true) ∧
  ps ≠ [] ∧
  ps `sublist_of` (light <$> ds_projects st) ∧
  (∀ p, p ∈ ps ↔
        ∃ q, q ∈ ds_projects st ∧ p = light q ∧
             ∀ tag, selectedTag = Some tag → tag ∈ p_tags q).
Proof.
  intros props. subst props.
  assert (Hp : projects (getServerSideProps st) =
               if showDirectory (getServerSideProps st)
               then light <$> ds_projects st else []) by reflexivity.
  unfold Projects. cbn [listing]. rewrite Hp.
  destruct (showDirectory (getServerSideProps st)) eqn:Hshow; [|done].
  case_bool_decide as Hlen; [|done]. intros [= <-].
  split_and!.
  - unfold showDirectory in Hshow. apply orb_true_iff in Hshow as [H|H]; auto.
    left. by apply negb_true_iff.
  - intros Hnil. rewrite Hnil in Hlen. simpl in Hlen. lia.
  - destruct selectedTag as [tag|]; simpl; [apply sublist_filter|done].
  - intros p. destruct selectedTag as [tag|]; simpl.
    + rewrite list_elem_of_filter, list_elem_of_fmap. split.
      * intros (Htag & q & -> & Hq). exists q. split_and!; [done..|].
        by intros ? [= <-].
      * intros (q & Hq & -> & Htag). split; [by apply Htag|by exists q].
    + rewrite list_elem_of_fmap. split.
      * intros (q & -> & Hq). by exists q.
      * intros (q & Hq & -> & _). by exists q.
Qed.

Lemma X19_cards_are_permitted_witness :
  let st := store_hidden (Some (Some "root@example.org")) in
  let props := getServerSideProps st in
  listing (Projects ["WEB"; "AI"; "GAME"] props (Some "AI")) = Cards [light project_a] ∧
  (truthy (directoryDisabled props) = false ∨ userIsAdmin props = true) ∧
  [light project_a] ≠ [] ∧
  [light project_a] `sublist_of` (light <$> ds_projects st) ∧
  (∀ p, p ∈ [light project_a] ↔
        ∃ q, q ∈ ds_projects st ∧ p = light q ∧
             ∀ tag, Some "AI" = Some tag → tag ∈ p_tags q).
Proof.
  assert (Hl : listing (Projects ["WEB"; "AI"; "GAME"]
                 (getServerSideProps (store_hidden (Some (Some "root@example.org"))))
                 (Some "AI")) = Cards [light project_a]) by (by vm_compute).
  cbv zeta. split; [exact Hl|].
  exact (X19_cards_are_permitted
           (store_hidden (Some (Some "root@example.org")))
           ["WEB"; "AI"; "GAME"] (Some "AI") [light project_a] Hl).
Defined.

(** X20. "No projects yet" is rendered exactly when the directory is not
    hidden from the visitor and no project of the table carries the selected
    tag (no project at all, without a selected tag): it also appears over a
    table that has projects. *)
Theorem X20_no_projects_iff (st : DirectoryStore)
    (tagKeys : list string) (selectedTag : option string) :
  let props := getServerSideProps st in
  listing (Projects tagKeys props selectedTag) = NoProjectsYet ↔
  showDirectory props = true ∧
  ∀ q, q ∈ ds_projects st →
       match selectedTag with
       | Some tag => tag ∉ p_tags q
       | None => False
       end.
Proof.
  intros props. subst props.
  assert (Hp : projects (getServerSideProps st) =
               if showDirectory (getServerSideProps st)
               then light <$> ds_projects st else []) by reflexivity.
  unfold Projects. cbn [listing]. rewrite Hp.
  destruct (showDirectory (getServerSideProps st)) eqn:Hshow;
    [|split; [done|by intros [[=] _]]].
  case_bool_decide as Hlen.
  - split; [done|]. intros [_ Hall]. exfalso.
    destruct (filteredProjects _ _) as [|p l] eqn:Hf; [simpl in Hlen; lia|].
    assert (Hin : p ∈ filteredProjects (light <$> ds_projects st) selectedTag)
      by (rewrite Hf; left).
    destruct selectedTag as [tag|]; simpl in Hin.
    + apply list_elem_of_filter in Hin as [Htag (q & -> & Hq)%list_elem_of_fmap].
      by apply (Hall q Hq).
    + apply list_elem_of_fmap in Hin as (q & -> & Hq). by apply (Hall q Hq).
  - split; [|done]. intros _. split; [done|]. intros q Hq.
    assert (Hnil : filteredProjects (light <$> ds_projects st) selectedTag = []).
    { destruct (filteredProjects _ _); [done|]. simpl in Hlen. lia. }
    destruct selectedTag as [tag|]; simpl in Hnil.
    + intros Htag.
      apply (filter_nil_not_elem_of _ _ (light q) Hnil); [done|].
      by apply list_elem_of_fmap_2.
    + apply fmap_nil_inv in Hnil. rewrite Hnil in Hq. by apply elem_of_nil in Hq.
Qed.

(** X21. Checking the box of a tag leaves the chip of that tag alone
    visible, and unchecking it brings back every chip and every project. *)
Theorem X21_chip_toggle (tagKeys : list string) (tag : string)
    (ps : list LightProjectData) :
  NoDup tagKeys →
  tag ∈ tagKeys →
  visible_tags tagKeys (onChange tag true) = [tag] ∧
  visible_tags tagKeys (onChange tag false) = tagKeys ∧
  filteredProjects ps (onChange tag false) = ps ∧
  (∀ p, p ∈ filteredProjects ps (onChange tag true) ↔
        p ∈ ps ∧ tag ∈ lp_tags p).
Proof.
  intros Hnd Hin. unfold visible_tags, onChange. split_and!.
  - rewrite <- (filter_eq_NoDup tagKeys tag Hnd Hin).
    apply list_filter_iff. intros y. split.
    + intros Hy. destruct (decide (y = tag)) as [->|Hne]; [done|].
      destruct Hy. split; congruence.
    + intros -> [_ Hne]. done.
  - apply filter_all. intros y _ [Hne _]. done.
  - done.
  - intros p. simpl. rewrite list_elem_of_filter. tauto.
Qed.

Lemma X21_chip_toggle_witness :
  NoDup ["WEB"; "AI"; "GAME"] ∧
  "AI" ∈ ["WEB"; "AI"; "GAME"] ∧
  visible_tags ["WEB"; "AI"; "GAME"] (onChange "AI" true) = ["AI"] ∧
  visible_tags ["WEB"; "AI"; "GAME"] (onChange "AI" false) = ["WEB"; "AI"; "GAME"] ∧
  filteredProjects [light project_a; light project_b] (onChange "AI" false)
    = [light project_a; light project_b] ∧
  (∀ p, p ∈ filteredProjects [light project_a; light project_b] (onChange "AI" true) ↔
        p ∈ [light project_a; light project_b] ∧ "AI" ∈ lp_tags p).
Proof.
  assert (Hnd : NoDup ["WEB"; "AI"; "GAME"]).
  { repeat (apply NoDup_cons; split;
            [rewrite ?elem_of_cons, ?elem_of_nil; intros H; intuition discriminate|]).
    apply NoDup_nil_2. }
  assert (Hin : "AI" ∈ ["WEB"; "AI"; "GAME"]) by (right; left).
  split; [exact Hnd|]. split; [exact Hin|].
  exact (X21_chip_toggle ["WEB"; "AI"; "GAME"] "AI"
           [light project_a; light project_b] Hnd Hin).
Defined.
